(** * The issues and milestones binding of go-github, and its specification

    A shallow embedding of [github/issues.go] and [github/issues_milestones.go]:
    the records of the data model, the query and JSON shapes their struct tags
    give them, and the fifteen operations of [IssuesService] as programs over
    the calls they make to the shared client ([addOptions], [NewRequest],
    [Do]). *)

From stdpp Require Import base option list strings gmap pretty.
From Stdlib Require Import ZArith Ascii.

#[local] Set Warnings "-register-all".

Local Open Scope Z_scope.

(** ** Go values *)

(** [*T]: nil or a pointee. *)
Definition ptr (T : Type) : Type := option T.

(** [[]T]: the nil slice or a sequence of elements. *)
Definition slice (T : Type) : Type := option (list T).

Definition elems {T : Type} (s : slice T) : list T := default [] s.

(** A non-nil [error], by its message. *)
Definition error : Type := string.

(** A call that returns [(T, error)] and whose value is used only when the
    error is nil. *)
Inductive Result (T : Type) : Type :=
| ok (v : T)
| failed (err : error).
Arguments ok {T} v.
Arguments failed {T} err.

(** [fmt.Sprintf] with the verbs [%v] and [%d] at an [int]: the decimal
    numeral, with a minus sign below zero. *)
Definition itoa (n : Z) : string := pretty n.

Definition int64_range (n : Z) : bool := ((- 2 ^ 63 <=? n) && (n <? 2 ^ 63))%Z.

(** ** JSON documents *)

(** A JSON value.  Numbers are integers: these files store a number into integer
    fields only. *)
Inductive json : Type :=
| JNull
| JBool (b : bool)
| JNumber (n : Z)
| JString (s : string)
| JArray (items : list json)
| JObject (members : list (string * json)).

(** The encoding a type has under [encoding/json]. *)
Class Marshaler (T : Type) : Type := MarshalJSON : T -> json.

(** Decoding a document into a value that is already there; the value is
    filled as far as the document fits it and the first misfit is reported. *)
Class Unmarshaler (T : Type) : Type := UnmarshalJSON : json -> T -> T * option error.

Definition first_error (e1 e2 : option error) : option error :=
  match e1 with Some e => Some e | None => e2 end.

Definition kind_name (j : json) : string :=
  match j with
  | JNull => "null" | JBool _ => "bool" | JNumber _ => "number"
  | JString _ => "string" | JArray _ => "array" | JObject _ => "object"
  end.

Definition mismatch (j : json) (goType : string) : option error :=
  Some ("json: cannot unmarshal " +:+ kind_name j +:+ " into Go value of type " +:+ goType).

(** *** Encoding: members of a struct *)

(** A field tagged [omitempty] whose type is a pointer: left out when nil. *)
Definition omitempty_ptr {T : Type} (name : string) (enc : T -> json) (p : ptr T)
  : list (string * json) :=
  match p with
  | None => []
  | Some v => [(name, enc v)]
  end.

(** A string field tagged [omitempty]: left out when empty. *)
Definition omitempty_string (name : string) (s : string) : list (string * json) :=
  if String.eqb s "" then [] else [(name, JString s)].

(** A pointer field without [omitempty]: always a member, [null] when nil. *)
Definition always_ptr {T : Type} (name : string) (enc : T -> json) (p : ptr T)
  : list (string * json) :=
  [(name, match p with None => JNull | Some v => enc v end)].

Definition enc_strings (s : slice string) : json :=
  match s with
  | None => JNull
  | Some l => JArray (JString <$> l)
  end.

(** *** Decoding: scalars, pointers, slices *)

Definition decode_string (j : json) (s : string) : string * option error :=
  match j with
  | JString x => (x, None)
  | JNull => (s, None)
  | _ => (s, mismatch j "string")
  end.

Definition decode_bool (j : json) (b : bool) : bool * option error :=
  match j with
  | JBool x => (x, None)
  | JNull => (b, None)
  | _ => (b, mismatch j "bool")
  end.

Definition decode_int (j : json) (n : Z) : Z * option error :=
  match j with
  | JNumber x => if int64_range x then (x, None) else (n, mismatch j "int")
  | JNull => (n, None)
  | _ => (n, mismatch j "int")
  end.

(** Into a pointer: [null] makes it nil; anything else is decoded into the
    pointee, which is allocated at its zero value when the pointer is nil. *)
Definition decode_ptr {T : Type} (zero : T) (dec : json -> T -> T * option error)
    (j : json) (p : ptr T) : ptr T * option error :=
  match j with
  | JNull => (None, None)
  | _ => let '(x, e) := dec j (default zero p) in (Some x, e)
  end.

Fixpoint decode_items {T : Type} (zero : T) (dec : json -> T -> T * option error)
    (items : list json) : list T * option error :=
  match items with
  | [] => ([], None)
  | j :: rest =>
      let '(x, e1) := dec j zero in
      let '(xs, e2) := decode_items zero dec rest in
      (x :: xs, first_error e1 e2)
  end.

(** Into a slice: [null] makes it nil; an array replaces the elements, each
    decoded into a fresh zero element. *)
Definition decode_slice {T : Type} (zero : T) (dec : json -> T -> T * option error)
    (j : json) (s : slice T) : slice T * option error :=
  match j with
  | JNull => (None, None)
  | JArray items => let '(xs, e) := decode_items zero dec items in (Some xs, e)
  | _ => (s, mismatch j "slice")
  end.

(** *** Decoding: structs *)

Definition upper (a : ascii) : ascii :=
  let n := Ascii.nat_of_ascii a in
  if ((97 <=? n) && (n <=? 122))%nat then Ascii.ascii_of_nat (n - 32) else a.

(** The folded form of a member name under which [encoding/json] compares it
    with a field's name: letters a-z in capitals, and the two letters outside
    ASCII that fold onto ASCII ones, the long s (bytes C5 BF) and the Kelvin
    sign (bytes E2 84 AA), as S and K. *)
Definition is_byte (n : nat) (a : ascii) : bool := Nat.eqb (Ascii.nat_of_ascii a) n.

Fixpoint foldName (s : string) : string :=
  match s with
  | String a (String b (String c r3 as r2) as r1) =>
      if is_byte 226 a && is_byte 132 b && is_byte 170 c then String "K" (foldName r3)
      else if is_byte 197 a && is_byte 191 b then String "S" (foldName r2)
      else String (upper a) (foldName r1)
  | String a (String b r2 as r1) =>
      if is_byte 197 a && is_byte 191 b then String "S" (foldName r2)
      else String (upper a) (foldName r1)
  | String a r1 => String (upper a) (foldName r1)
  | EmptyString => EmptyString
  end.

(** Whether the member name [key] selects the field tagged [tag]. *)
Definition names_field (tag key : string) : bool :=
  String.eqb tag key || String.eqb (foldName tag) (foldName key).

(** A field of the struct [S] as the decoder sees it: its JSON name and how a
    document is stored into it. *)
Record field (S : Type) : Type := Field {
  tag : string;
  store : json -> S -> S * option error
}.
Arguments Field {S} tag store.
Arguments tag {S} f.
Arguments store {S} f.

(** A field given by its getter, its setter and the decoder of its type. *)
Definition on {S F : Type} (get : S -> F) (put : F -> S -> S)
    (dec : json -> F -> F * option error) : json -> S -> S * option error :=
  fun j s => let '(x, e) := dec j (get s) in (put x s, e).

(** The field a member name selects: the one with exactly that name, else the
    first one equal to it under folding. *)
Definition lookup_field {S : Type} (fs : list (field S)) (key : string) : option (field S) :=
  match List.find (fun f => String.eqb (tag f) key) fs with
  | Some f => Some f
  | None => List.find (fun f => String.eqb (foldName (tag f)) (foldName key)) fs
  end.

(** The members of an object are stored one after the other, in the order of
    the document; members that select no field are skipped. *)
Fixpoint decode_members {S : Type} (fs : list (field S)) (ms : list (string * json)) (s : S)
  : S * option error :=
  match ms with
  | [] => (s, None)
  | (k, v) :: rest =>
      match lookup_field fs k with
      | None => decode_members fs rest s
      | Some f =>
          let '(s1, e1) := store f v s in
          let '(s2, e2) := decode_members fs rest s1 in
          (s2, first_error e1 e2)
      end
  end.

Definition decode_struct {S : Type} (goType : string) (fs : list (field S)) (j : json) (s : S)
  : S * option error :=
  match j with
  | JObject ms => decode_members fs ms s
  | JNull => (s, None)
  | _ => (s, mismatch j goType)
  end.

(** The value of the last member of [ms] that selects the field [tag]. *)
Fixpoint last_member (tag : string) (ms : list (string * json)) : option json :=
  match ms with
  | [] => None
  | (k, v) :: rest =>
      match last_member tag rest with
      | Some v' => Some v'
      | None => if names_field tag k then Some v else None
      end
  end.
(** ** The data model *)

(** Modelled from the spec: [User], [Label], [Repository], [Reactions] and
    [TextMatch] are sub-records of an issue that are declared outside these two
    files.  Each is kept as the JSON object it was decoded from; decoding into
    one accepts any object. *)
Module Document.

Definition t : Type := json.

Definition zero : t := JObject [].

Definition decode (j : json) (d : t) : t * option error :=
  match j with
  | JObject _ => (j, None)
  | JNull => (d, None)
  | _ => (d, mismatch j "struct")
  end.

Definition encode (d : t) : json := d.

End Document.

Module User := Document.
Module Label := Document.
Module Repository := Document.
Module Reactions := Document.
Module TextMatch := Document.

(** Modelled from the spec: [Timestamp] is declared outside these two files; on
    the wire it is a string or a number, and it is kept as that JSON scalar. *)
Module Timestamp.

Definition t : Type := json.

Definition zero : t := JString "0001-01-01T00:00:00Z".

Definition decode (j : json) (d : t) : t * option error :=
  match j with
  | JString _ | JNumber _ => (j, None)
  | JNull => (d, None)
  | _ => (d, mismatch j "Timestamp")
  end.

Definition encode (d : t) : json := d.

End Timestamp.

(** Modelled from the spec: [time.Time] belongs to the standard library.  An
    instant is looked at here only as the query parameter [since], which needs
    whether it is the zero instant and its RFC 3339 text. *)
Record Time : Type := { IsZero : bool; RFC3339 : string }.

(** A repository milestone ([Milestone], issues_milestones.go). *)
Module Milestone.

Record t : Type := Build {
  URL : ptr string;
  HTMLURL : ptr string;
  LabelsURL : ptr string;
  ID : ptr Z;
  Number : ptr Z;
  State : ptr string;
  Title : ptr string;
  Description : ptr string;
  Creator : ptr User.t;
  OpenIssues : ptr Z;
  ClosedIssues : ptr Z;
  CreatedAt : ptr Timestamp.t;
  UpdatedAt : ptr Timestamp.t;
  ClosedAt : ptr Timestamp.t;
  DueOn : ptr Timestamp.t;
  NodeID : ptr string
}.

Definition zero : t := Build None None None None None None None None None None None None
  None None None None.

Definition with_URL (x : ptr string) (s : t) : t :=
  let '(Build _ f2 f3 f4 f5 f6 f7 f8 f9 f10 f11 f12 f13 f14 f15 f16) := s in
  Build x f2 f3 f4 f5 f6 f7 f8 f9 f10 f11 f12 f13 f14 f15 f16.

Definition with_HTMLURL (x : ptr string) (s : t) : t :=
  let '(Build f1 _ f3 f4 f5 f6 f7 f8 f9 f10 f11 f12 f13 f14 f15 f16) := s in
  Build f1 x f3 f4 f5 f6 f7 f8 f9 f10 f11 f12 f13 f14 f15 f16.

Definition with_LabelsURL (x : ptr string) (s : t) : t :=
  let '(Build f1 f2 _ f4 f5 f6 f7 f8 f9 f10 f11 f12 f13 f14 f15 f16) := s in
  Build f1 f2 x f4 f5 f6 f7 f8 f9 f10 f11 f12 f13 f14 f15 f16.

Definition with_ID (x : ptr Z) (s : t) : t :=
  let '(Build f1 f2 f3 _ f5 f6 f7 f8 f9 f10 f11 f12 f13 f14 f15 f16) := s in
  Build f1 f2 f3 x f5 f6 f7 f8 f9 f10 f11 f12 f13 f14 f15 f16.

Definition with_Number (x : ptr Z) (s : t) : t :=
  let '(Build f1 f2 f3 f4 _ f6 f7 f8 f9 f10 f11 f12 f13 f14 f15 f16) := s in
  Build f1 f2 f3 f4 x f6 f7 f8 f9 f10 f11 f12 f13 f14 f15 f16.

Definition with_State (x : ptr string) (s : t) : t :=
  let '(Build f1 f2 f3 f4 f5 _ f7 f8 f9 f10 f11 f12 f13 f14 f15 f16) := s in
  Build f1 f2 f3 f4 f5 x f7 f8 f9 f10 f11 f12 f13 f14 f15 f16.

Definition with_Title (x : ptr string) (s : t) : t :=
  let '(Build f1 f2 f3 f4 f5 f6 _ f8 f9 f10 f11 f12 f13 f14 f15 f16) := s in
  Build f1 f2 f3 f4 f5 f6 x f8 f9 f10 f11 f12 f13 f14 f15 f16.

Definition with_Description (x : ptr string) (s : t) : t :=
  let '(Build f1 f2 f3 f4 f5 f6 f7 _ f9 f10 f11 f12 f13 f14 f15 f16) := s in
  Build f1 f2 f3 f4 f5 f6 f7 x f9 f10 f11 f12 f13 f14 f15 f16.

Definition with_Creator (x : ptr User.t) (s : t) : t :=
  let '(Build f1 f2 f3 f4 f5 f6 f7 f8 _ f10 f11 f12 f13 f14 f15 f16) := s in
  Build f1 f2 f3 f4 f5 f6 f7 f8 x f10 f11 f12 f13 f14 f15 f16.

Definition with_OpenIssues (x : ptr Z) (s : t) : t :=
  let '(Build f1 f2 f3 f4 f5 f6 f7 f8 f9 _ f11 f12 f13 f14 f15 f16) := s in
  Build f1 f2 f3 f4 f5 f6 f7 f8 f9 x f11 f12 f13 f14 f15 f16.

Definition with_ClosedIssues (x : ptr Z) (s : t) : t :=
  let '(Build f1 f2 f3 f4 f5 f6 f7 f8 f9 f10 _ f12 f13 f14 f15 f16) := s in
  Build f1 f2 f3 f4 f5 f6 f7 f8 f9 f10 x f12 f13 f14 f15 f16.

Definition with_CreatedAt (x : ptr Timestamp.t) (s : t) : t :=
  let '(Build f1 f2 f3 f4 f5 f6 f7 f8 f9 f10 f11 _ f13 f14 f15 f16) := s in
  Build f1 f2 f3 f4 f5 f6 f7 f8 f9 f10 f11 x f13 f14 f15 f16.

Definition with_UpdatedAt (x : ptr Timestamp.t) (s : t) : t :=
  let '(Build f1 f2 f3 f4 f5 f6 f7 f8 f9 f10 f11 f12 _ f14 f15 f16) := s in
  Build f1 f2 f3 f4 f5 f6 f7 f8 f9 f10 f11 f12 x f14 f15 f16.

Definition with_ClosedAt (x : ptr Timestamp.t) (s : t) : t :=
  let '(Build f1 f2 f3 f4 f5 f6 f7 f8 f9 f10 f11 f12 f13 _ f15 f16) := s in
  Build f1 f2 f3 f4 f5 f6 f7 f8 f9 f10 f11 f12 f13 x f15 f16.

Definition with_DueOn (x : ptr Timestamp.t) (s : t) : t :=
  let '(Build f1 f2 f3 f4 f5 f6 f7 f8 f9 f10 f11 f12 f13 f14 _ f16) := s in
  Build f1 f2 f3 f4 f5 f6 f7 f8 f9 f10 f11 f12 f13 f14 x f16.

Definition with_NodeID (x : ptr string) (s : t) : t :=
  let '(Build f1 f2 f3 f4 f5 f6 f7 f8 f9 f10 f11 f12 f13 f14 f15 _) := s in
  Build f1 f2 f3 f4 f5 f6 f7 f8 f9 f10 f11 f12 f13 f14 f15 x.

Definition fields : list (field t) := [
  Field "url" (on URL with_URL (decode_ptr "" decode_string));
  Field "html_url" (on HTMLURL with_HTMLURL (decode_ptr "" decode_string));
  Field "labels_url" (on LabelsURL with_LabelsURL (decode_ptr "" decode_string));
  Field "id" (on ID with_ID (decode_ptr 0%Z decode_int));
  Field "number" (on Number with_Number (decode_ptr 0%Z decode_int));
  Field "state" (on State with_State (decode_ptr "" decode_string));
  Field "title" (on Title with_Title (decode_ptr "" decode_string));
  Field "description" (on Description with_Description (decode_ptr "" decode_string));
  Field "creator" (on Creator with_Creator (decode_ptr User.zero User.decode));
  Field "open_issues" (on OpenIssues with_OpenIssues (decode_ptr 0%Z decode_int));
  Field "closed_issues" (on ClosedIssues with_ClosedIssues (decode_ptr 0%Z decode_int));
  Field "created_at" (on CreatedAt with_CreatedAt (decode_ptr Timestamp.zero Timestamp.decode));
  Field "updated_at" (on UpdatedAt with_UpdatedAt (decode_ptr Timestamp.zero Timestamp.decode));
  Field "closed_at" (on ClosedAt with_ClosedAt (decode_ptr Timestamp.zero Timestamp.decode));
  Field "due_on" (on DueOn with_DueOn (decode_ptr Timestamp.zero Timestamp.decode));
  Field "node_id" (on NodeID with_NodeID (decode_ptr "" decode_string))
].

Definition decode : json -> t -> t * option error := decode_struct "Milestone" fields.

Definition members (s : t) : list (string * json) :=
  omitempty_ptr "url" JString (URL s) ++
  omitempty_ptr "html_url" JString (HTMLURL s) ++
  omitempty_ptr "labels_url" JString (LabelsURL s) ++
  omitempty_ptr "id" JNumber (ID s) ++
  omitempty_ptr "number" JNumber (Number s) ++
  omitempty_ptr "state" JString (State s) ++
  omitempty_ptr "title" JString (Title s) ++
  omitempty_ptr "description" JString (Description s) ++
  omitempty_ptr "creator" User.encode (Creator s) ++
  omitempty_ptr "open_issues" JNumber (OpenIssues s) ++
  omitempty_ptr "closed_issues" JNumber (ClosedIssues s) ++
  omitempty_ptr "created_at" Timestamp.encode (CreatedAt s) ++
  omitempty_ptr "updated_at" Timestamp.encode (UpdatedAt s) ++
  omitempty_ptr "closed_at" Timestamp.encode (ClosedAt s) ++
  omitempty_ptr "due_on" Timestamp.encode (DueOn s) ++
  omitempty_ptr "node_id" JString (NodeID s).

Definition encode (s : t) : json := JObject (members s).

End Milestone.
(** The links an issue carries when it is a pull request ([PullRequestLinks]). *)
Module PullRequestLinks.

Record t : Type := Build {
  URL : ptr string;
  HTMLURL : ptr string;
  DiffURL : ptr string;
  PatchURL : ptr string;
  MergedAt : ptr Timestamp.t
}.

Definition zero : t := Build None None None None None.

Definition with_URL (x : ptr string) (s : t) : t :=
  let '(Build _ f2 f3 f4 f5) := s in
  Build x f2 f3 f4 f5.

Definition with_HTMLURL (x : ptr string) (s : t) : t :=
  let '(Build f1 _ f3 f4 f5) := s in
  Build f1 x f3 f4 f5.

Definition with_DiffURL (x : ptr string) (s : t) : t :=
  let '(Build f1 f2 _ f4 f5) := s in
  Build f1 f2 x f4 f5.

Definition with_PatchURL (x : ptr string) (s : t) : t :=
  let '(Build f1 f2 f3 _ f5) := s in
  Build f1 f2 f3 x f5.

Definition with_MergedAt (x : ptr Timestamp.t) (s : t) : t :=
  let '(Build f1 f2 f3 f4 _) := s in
  Build f1 f2 f3 f4 x.

Definition fields : list (field t) := [
  Field "url" (on URL with_URL (decode_ptr "" decode_string));
  Field "html_url" (on HTMLURL with_HTMLURL (decode_ptr "" decode_string));
  Field "diff_url" (on DiffURL with_DiffURL (decode_ptr "" decode_string));
  Field "patch_url" (on PatchURL with_PatchURL (decode_ptr "" decode_string));
  Field "merged_at" (on MergedAt with_MergedAt (decode_ptr Timestamp.zero Timestamp.decode))
].

Definition decode : json -> t -> t * option error := decode_struct "PullRequestLinks" fields.

End PullRequestLinks.
(** The type of an issue ([IssueType]). *)
Module IssueType.

Record t : Type := Build {
  ID : ptr Z;
  NodeID : ptr string;
  Name : ptr string;
  Description : ptr string;
  Color : ptr string;
  CreatedAt : ptr Timestamp.t;
  UpdatedAt : ptr Timestamp.t
}.

Definition zero : t := Build None None None None None None None.

Definition with_ID (x : ptr Z) (s : t) : t :=
  let '(Build _ f2 f3 f4 f5 f6 f7) := s in
  Build x f2 f3 f4 f5 f6 f7.

Definition with_NodeID (x : ptr string) (s : t) : t :=
  let '(Build f1 _ f3 f4 f5 f6 f7) := s in
  Build f1 x f3 f4 f5 f6 f7.

Definition with_Name (x : ptr string) (s : t) : t :=
  let '(Build f1 f2 _ f4 f5 f6 f7) := s in
  Build f1 f2 x f4 f5 f6 f7.

Definition with_Description (x : ptr string) (s : t) : t :=
  let '(Build f1 f2 f3 _ f5 f6 f7) := s in
  Build f1 f2 f3 x f5 f6 f7.

Definition with_Color (x : ptr string) (s : t) : t :=
  let '(Build f1 f2 f3 f4 _ f6 f7) := s in
  Build f1 f2 f3 f4 x f6 f7.

Definition with_CreatedAt (x : ptr Timestamp.t) (s : t) : t :=
  let '(Build f1 f2 f3 f4 f5 _ f7) := s in
  Build f1 f2 f3 f4 f5 x f7.

Definition with_UpdatedAt (x : ptr Timestamp.t) (s : t) : t :=
  let '(Build f1 f2 f3 f4 f5 f6 _) := s in
  Build f1 f2 f3 f4 f5 f6 x.

Definition fields : list (field t) := [
  Field "id" (on ID with_ID (decode_ptr 0%Z decode_int));
  Field "node_id" (on NodeID with_NodeID (decode_ptr "" decode_string));
  Field "name" (on Name with_Name (decode_ptr "" decode_string));
  Field "description" (on Description with_Description (decode_ptr "" decode_string));
  Field "color" (on Color with_Color (decode_ptr "" decode_string));
  Field "created_at" (on CreatedAt with_CreatedAt (decode_ptr Timestamp.zero Timestamp.decode));
  Field "updated_at" (on UpdatedAt with_UpdatedAt (decode_ptr Timestamp.zero Timestamp.decode))
].

Definition decode : json -> t -> t * option error := decode_struct "IssueType" fields.

End IssueType.
(** An issue on a repository ([Issue]).  The field [Type] of the source is [Type_] here. *)
Module Issue.

Record t : Type := Build {
  ID : ptr Z;
  Number : ptr Z;
  State : ptr string;
  StateReason : ptr string;
  Locked : ptr bool;
  Title : ptr string;
  Body : ptr string;
  AuthorAssociation : ptr string;
  User : ptr User.t;
  Labels : slice (ptr Label.t);
  Assignee : ptr User.t;
  Comments : ptr Z;
  ClosedAt : ptr Timestamp.t;
  CreatedAt : ptr Timestamp.t;
  UpdatedAt : ptr Timestamp.t;
  ClosedBy : ptr User.t;
  URL : ptr string;
  HTMLURL : ptr string;
  CommentsURL : ptr string;
  EventsURL : ptr string;
  LabelsURL : ptr string;
  RepositoryURL : ptr string;
  Milestone : ptr Milestone.t;
  PullRequestLinks : ptr PullRequestLinks.t;
  Repository : ptr Repository.t;
  Reactions : ptr Reactions.t;
  Assignees : slice (ptr User.t);
  NodeID : ptr string;
  Draft : ptr bool;
  Type_ : ptr IssueType.t;
  TextMatches : slice (ptr TextMatch.t);
  ActiveLockReason : ptr string
}.

Definition zero : t := Build None None None None None None None None None None None None
  None None None None None None None None None None None None None None None None None None
  None None.

Definition with_ID (x : ptr Z) (s : t) : t :=
  let '(Build _ f2 f3 f4 f5 f6 f7 f8 f9 f10 f11 f12 f13 f14 f15 f16 f17 f18 f19 f20 f21 f22
      f23 f24 f25 f26 f27 f28 f29 f30 f31 f32) := s in
  Build x f2 f3 f4 f5 f6 f7 f8 f9 f10 f11 f12 f13 f14 f15 f16 f17 f18 f19 f20 f21 f22 f23
    f24 f25 f26 f27 f28 f29 f30 f31 f32.

Definition with_Number (x : ptr Z) (s : t) : t :=
  let '(Build f1 _ f3 f4 f5 f6 f7 f8 f9 f10 f11 f12 f13 f14 f15 f16 f17 f18 f19 f20 f21 f22
      f23 f24 f25 f26 f27 f28 f29 f30 f31 f32) := s in
  Build f1 x f3 f4 f5 f6 f7 f8 f9 f10 f11 f12 f13 f14 f15 f16 f17 f18 f19 f20 f21 f22 f23
    f24 f25 f26 f27 f28 f29 f30 f31 f32.

Definition with_State (x : ptr string) (s : t) : t :=
  let '(Build f1 f2 _ f4 f5 f6 f7 f8 f9 f10 f11 f12 f13 f14 f15 f16 f17 f18 f19 f20 f21 f22
      f23 f24 f25 f26 f27 f28 f29 f30 f31 f32) := s in
  Build f1 f2 x f4 f5 f6 f7 f8 f9 f10 f11 f12 f13 f14 f15 f16 f17 f18 f19 f20 f21 f22 f23
    f24 f25 f26 f27 f28 f29 f30 f31 f32.

Definition with_StateReason (x : ptr string) (s : t) : t :=
  let '(Build f1 f2 f3 _ f5 f6 f7 f8 f9 f10 f11 f12 f13 f14 f15 f16 f17 f18 f19 f20 f21 f22
      f23 f24 f25 f26 f27 f28 f29 f30 f31 f32) := s in
  Build f1 f2 f3 x f5 f6 f7 f8 f9 f10 f11 f12 f13 f14 f15 f16 f17 f18 f19 f20 f21 f22 f23
    f24 f25 f26 f27 f28 f29 f30 f31 f32.

Definition with_Locked (x : ptr bool) (s : t) : t :=
  let '(Build f1 f2 f3 f4 _ f6 f7 f8 f9 f10 f11 f12 f13 f14 f15 f16 f17 f18 f19 f20 f21 f22
      f23 f24 f25 f26 f27 f28 f29 f30 f31 f32) := s in
  Build f1 f2 f3 f4 x f6 f7 f8 f9 f10 f11 f12 f13 f14 f15 f16 f17 f18 f19 f20 f21 f22 f23
    f24 f25 f26 f27 f28 f29 f30 f31 f32.

Definition with_Title (x : ptr string) (s : t) : t :=
  let '(Build f1 f2 f3 f4 f5 _ f7 f8 f9 f10 f11 f12 f13 f14 f15 f16 f17 f18 f19 f20 f21 f22
      f23 f24 f25 f26 f27 f28 f29 f30 f31 f32) := s in
  Build f1 f2 f3 f4 f5 x f7 f8 f9 f10 f11 f12 f13 f14 f15 f16 f17 f18 f19 f20 f21 f22 f23
    f24 f25 f26 f27 f28 f29 f30 f31 f32.

Definition with_Body (x : ptr string) (s : t) : t :=
  let '(Build f1 f2 f3 f4 f5 f6 _ f8 f9 f10 f11 f12 f13 f14 f15 f16 f17 f18 f19 f20 f21 f22
      f23 f24 f25 f26 f27 f28 f29 f30 f31 f32) := s in
  Build f1 f2 f3 f4 f5 f6 x f8 f9 f10 f11 f12 f13 f14 f15 f16 f17 f18 f19 f20 f21 f22 f23
    f24 f25 f26 f27 f28 f29 f30 f31 f32.

Definition with_AuthorAssociation (x : ptr string) (s : t) : t :=
  let '(Build f1 f2 f3 f4 f5 f6 f7 _ f9 f10 f11 f12 f13 f14 f15 f16 f17 f18 f19 f20 f21 f22
      f23 f24 f25 f26 f27 f28 f29 f30 f31 f32) := s in
  Build f1 f2 f3 f4 f5 f6 f7 x f9 f10 f11 f12 f13 f14 f15 f16 f17 f18 f19 f20 f21 f22 f23
    f24 f25 f26 f27 f28 f29 f30 f31 f32.

Definition with_User (x : ptr User.t) (s : t) : t :=
  let '(Build f1 f2 f3 f4 f5 f6 f7 f8 _ f10 f11 f12 f13 f14 f15 f16 f17 f18 f19 f20 f21 f22
      f23 f24 f25 f26 f27 f28 f29 f30 f31 f32) := s in
  Build f1 f2 f3 f4 f5 f6 f7 f8 x f10 f11 f12 f13 f14 f15 f16 f17 f18 f19 f20 f21 f22 f23
    f24 f25 f26 f27 f28 f29 f30 f31 f32.

Definition with_Labels (x : slice (ptr Label.t)) (s : t) : t :=
  let '(Build f1 f2 f3 f4 f5 f6 f7 f8 f9 _ f11 f12 f13 f14 f15 f16 f17 f18 f19 f20 f21 f22
      f23 f24 f25 f26 f27 f28 f29 f30 f31 f32) := s in
  Build f1 f2 f3 f4 f5 f6 f7 f8 f9 x f11 f12 f13 f14 f15 f16 f17 f18 f19 f20 f21 f22 f23 f24
    f25 f26 f27 f28 f29 f30 f31 f32.

Definition with_Assignee (x : ptr User.t) (s : t) : t :=
  let '(Build f1 f2 f3 f4 f5 f6 f7 f8 f9 f10 _ f12 f13 f14 f15 f16 f17 f18 f19 f20 f21 f22
      f23 f24 f25 f26 f27 f28 f29 f30 f31 f32) := s in
  Build f1 f2 f3 f4 f5 f6 f7 f8 f9 f10 x f12 f13 f14 f15 f16 f17 f18 f19 f20 f21 f22 f23 f24
    f25 f26 f27 f28 f29 f30 f31 f32.

Definition with_Comments (x : ptr Z) (s : t) : t :=
  let '(Build f1 f2 f3 f4 f5 f6 f7 f8 f9 f10 f11 _ f13 f14 f15 f16 f17 f18 f19 f20 f21 f22
      f23 f24 f25 f26 f27 f28 f29 f30 f31 f32) := s in
  Build f1 f2 f3 f4 f5 f6 f7 f8 f9 f10 f11 x f13 f14 f15 f16 f17 f18 f19 f20 f21 f22 f23 f24
    f25 f26 f27 f28 f29 f30 f31 f32.

Definition with_ClosedAt (x : ptr Timestamp.t) (s : t) : t :=
  let '(Build f1 f2 f3 f4 f5 f6 f7 f8 f9 f10 f11 f12 _ f14 f15 f16 f17 f18 f19 f20 f21 f22
      f23 f24 f25 f26 f27 f28 f29 f30 f31 f32) := s in
  Build f1 f2 f3 f4 f5 f6 f7 f8 f9 f10 f11 f12 x f14 f15 f16 f17 f18 f19 f20 f21 f22 f23 f24
    f25 f26 f27 f28 f29 f30 f31 f32.

Definition with_CreatedAt (x : ptr Timestamp.t) (s : t) : t :=
  let '(Build f1 f2 f3 f4 f5 f6 f7 f8 f9 f10 f11 f12 f13 _ f15 f16 f17 f18 f19 f20 f21 f22
      f23 f24 f25 f26 f27 f28 f29 f30 f31 f32) := s in
  Build f1 f2 f3 f4 f5 f6 f7 f8 f9 f10 f11 f12 f13 x f15 f16 f17 f18 f19 f20 f21 f22 f23 f24
    f25 f26 f27 f28 f29 f30 f31 f32.

Definition with_UpdatedAt (x : ptr Timestamp.t) (s : t) : t :=
  let '(Build f1 f2 f3 f4 f5 f6 f7 f8 f9 f10 f11 f12 f13 f14 _ f16 f17 f18 f19 f20 f21 f22
      f23 f24 f25 f26 f27 f28 f29 f30 f31 f32) := s in
  Build f1 f2 f3 f4 f5 f6 f7 f8 f9 f10 f11 f12 f13 f14 x f16 f17 f18 f19 f20 f21 f22 f23 f24
    f25 f26 f27 f28 f29 f30 f31 f32.

Definition with_ClosedBy (x : ptr User.t) (s : t) : t :=
  let '(Build f1 f2 f3 f4 f5 f6 f7 f8 f9 f10 f11 f12 f13 f14 f15 _ f17 f18 f19 f20 f21 f22
      f23 f24 f25 f26 f27 f28 f29 f30 f31 f32) := s in
  Build f1 f2 f3 f4 f5 f6 f7 f8 f9 f10 f11 f12 f13 f14 f15 x f17 f18 f19 f20 f21 f22 f23 f24
    f25 f26 f27 f28 f29 f30 f31 f32.

Definition with_URL (x : ptr string) (s : t) : t :=
  let '(Build f1 f2 f3 f4 f5 f6 f7 f8 f9 f10 f11 f12 f13 f14 f15 f16 _ f18 f19 f20 f21 f22
      f23 f24 f25 f26 f27 f28 f29 f30 f31 f32) := s in
  Build f1 f2 f3 f4 f5 f6 f7 f8 f9 f10 f11 f12 f13 f14 f15 f16 x f18 f19 f20 f21 f22 f23 f24
    f25 f26 f27 f28 f29 f30 f31 f32.

Definition with_HTMLURL (x : ptr string) (s : t) : t :=
  let '(Build f1 f2 f3 f4 f5 f6 f7 f8 f9 f10 f11 f12 f13 f14 f15 f16 f17 _ f19 f20 f21 f22
      f23 f24 f25 f26 f27 f28 f29 f30 f31 f32) := s in
  Build f1 f2 f3 f4 f5 f6 f7 f8 f9 f10 f11 f12 f13 f14 f15 f16 f17 x f19 f20 f21 f22 f23 f24
    f25 f26 f27 f28 f29 f30 f31 f32.

Definition with_CommentsURL (x : ptr string) (s : t) : t :=
  let '(Build f1 f2 f3 f4 f5 f6 f7 f8 f9 f10 f11 f12 f13 f14 f15 f16 f17 f18 _ f20 f21 f22
      f23 f24 f25 f26 f27 f28 f29 f30 f31 f32) := s in
  Build f1 f2 f3 f4 f5 f6 f7 f8 f9 f10 f11 f12 f13 f14 f15 f16 f17 f18 x f20 f21 f22 f23 f24
    f25 f26 f27 f28 f29 f30 f31 f32.

Definition with_EventsURL (x : ptr string) (s : t) : t :=
  let '(Build f1 f2 f3 f4 f5 f6 f7 f8 f9 f10 f11 f12 f13 f14 f15 f16 f17 f18 f19 _ f21 f22
      f23 f24 f25 f26 f27 f28 f29 f30 f31 f32) := s in
  Build f1 f2 f3 f4 f5 f6 f7 f8 f9 f10 f11 f12 f13 f14 f15 f16 f17 f18 f19 x f21 f22 f23 f24
    f25 f26 f27 f28 f29 f30 f31 f32.

Definition with_LabelsURL (x : ptr string) (s : t) : t :=
  let '(Build f1 f2 f3 f4 f5 f6 f7 f8 f9 f10 f11 f12 f13 f14 f15 f16 f17 f18 f19 f20 _ f22
      f23 f24 f25 f26 f27 f28 f29 f30 f31 f32) := s in
  Build f1 f2 f3 f4 f5 f6 f7 f8 f9 f10 f11 f12 f13 f14 f15 f16 f17 f18 f19 f20 x f22 f23 f24
    f25 f26 f27 f28 f29 f30 f31 f32.

Definition with_RepositoryURL (x : ptr string) (s : t) : t :=
  let '(Build f1 f2 f3 f4 f5 f6 f7 f8 f9 f10 f11 f12 f13 f14 f15 f16 f17 f18 f19 f20 f21 _
      f23 f24 f25 f26 f27 f28 f29 f30 f31 f32) := s in
  Build f1 f2 f3 f4 f5 f6 f7 f8 f9 f10 f11 f12 f13 f14 f15 f16 f17 f18 f19 f20 f21 x f23 f24
    f25 f26 f27 f28 f29 f30 f31 f32.

Definition with_Milestone (x : ptr Milestone.t) (s : t) : t :=
  let '(Build f1 f2 f3 f4 f5 f6 f7 f8 f9 f10 f11 f12 f13 f14 f15 f16 f17 f18 f19 f20 f21 f22
      _ f24 f25 f26 f27 f28 f29 f30 f31 f32) := s in
  Build f1 f2 f3 f4 f5 f6 f7 f8 f9 f10 f11 f12 f13 f14 f15 f16 f17 f18 f19 f20 f21 f22 x f24
    f25 f26 f27 f28 f29 f30 f31 f32.

Definition with_PullRequestLinks (x : ptr PullRequestLinks.t) (s : t) : t :=
  let '(Build f1 f2 f3 f4 f5 f6 f7 f8 f9 f10 f11 f12 f13 f14 f15 f16 f17 f18 f19 f20 f21 f22
      f23 _ f25 f26 f27 f28 f29 f30 f31 f32) := s in
  Build f1 f2 f3 f4 f5 f6 f7 f8 f9 f10 f11 f12 f13 f14 f15 f16 f17 f18 f19 f20 f21 f22 f23 x
    f25 f26 f27 f28 f29 f30 f31 f32.

Definition with_Repository (x : ptr Repository.t) (s : t) : t :=
  let '(Build f1 f2 f3 f4 f5 f6 f7 f8 f9 f10 f11 f12 f13 f14 f15 f16 f17 f18 f19 f20 f21 f22
      f23 f24 _ f26 f27 f28 f29 f30 f31 f32) := s in
  Build f1 f2 f3 f4 f5 f6 f7 f8 f9 f10 f11 f12 f13 f14 f15 f16 f17 f18 f19 f20 f21 f22 f23
    f24 x f26 f27 f28 f29 f30 f31 f32.

Definition with_Reactions (x : ptr Reactions.t) (s : t) : t :=
  let '(Build f1 f2 f3 f4 f5 f6 f7 f8 f9 f10 f11 f12 f13 f14 f15 f16 f17 f18 f19 f20 f21 f22
      f23 f24 f25 _ f27 f28 f29 f30 f31 f32) := s in
  Build f1 f2 f3 f4 f5 f6 f7 f8 f9 f10 f11 f12 f13 f14 f15 f16 f17 f18 f19 f20 f21 f22 f23
    f24 f25 x f27 f28 f29 f30 f31 f32.

Definition with_Assignees (x : slice (ptr User.t)) (s : t) : t :=
  let '(Build f1 f2 f3 f4 f5 f6 f7 f8 f9 f10 f11 f12 f13 f14 f15 f16 f17 f18 f19 f20 f21 f22
      f23 f24 f25 f26 _ f28 f29 f30 f31 f32) := s in
  Build f1 f2 f3 f4 f5 f6 f7 f8 f9 f10 f11 f12 f13 f14 f15 f16 f17 f18 f19 f20 f21 f22 f23
    f24 f25 f26 x f28 f29 f30 f31 f32.

Definition with_NodeID (x : ptr string) (s : t) : t :=
  let '(Build f1 f2 f3 f4 f5 f6 f7 f8 f9 f10 f11 f12 f13 f14 f15 f16 f17 f18 f19 f20 f21 f22
      f23 f24 f25 f26 f27 _ f29 f30 f31 f32) := s in
  Build f1 f2 f3 f4 f5 f6 f7 f8 f9 f10 f11 f12 f13 f14 f15 f16 f17 f18 f19 f20 f21 f22 f23
    f24 f25 f26 f27 x f29 f30 f31 f32.

Definition with_Draft (x : ptr bool) (s : t) : t :=
  let '(Build f1 f2 f3 f4 f5 f6 f7 f8 f9 f10 f11 f12 f13 f14 f15 f16 f17 f18 f19 f20 f21 f22
      f23 f24 f25 f26 f27 f28 _ f30 f31 f32) := s in
  Build f1 f2 f3 f4 f5 f6 f7 f8 f9 f10 f11 f12 f13 f14 f15 f16 f17 f18 f19 f20 f21 f22 f23
    f24 f25 f26 f27 f28 x f30 f31 f32.

Definition with_Type_ (x : ptr IssueType.t) (s : t) : t :=
  let '(Build f1 f2 f3 f4 f5 f6 f7 f8 f9 f10 f11 f12 f13 f14 f15 f16 f17 f18 f19 f20 f21 f22
      f23 f24 f25 f26 f27 f28 f29 _ f31 f32) := s in
  Build f1 f2 f3 f4 f5 f6 f7 f8 f9 f10 f11 f12 f13 f14 f15 f16 f17 f18 f19 f20 f21 f22 f23
    f24 f25 f26 f27 f28 f29 x f31 f32.

Definition with_TextMatches (x : slice (ptr TextMatch.t)) (s : t) : t :=
  let '(Build f1 f2 f3 f4 f5 f6 f7 f8 f9 f10 f11 f12 f13 f14 f15 f16 f17 f18 f19 f20 f21 f22
      f23 f24 f25 f26 f27 f28 f29 f30 _ f32) := s in
  Build f1 f2 f3 f4 f5 f6 f7 f8 f9 f10 f11 f12 f13 f14 f15 f16 f17 f18 f19 f20 f21 f22 f23
    f24 f25 f26 f27 f28 f29 f30 x f32.

Definition with_ActiveLockReason (x : ptr string) (s : t) : t :=
  let '(Build f1 f2 f3 f4 f5 f6 f7 f8 f9 f10 f11 f12 f13 f14 f15 f16 f17 f18 f19 f20 f21 f22
      f23 f24 f25 f26 f27 f28 f29 f30 f31 _) := s in
  Build f1 f2 f3 f4 f5 f6 f7 f8 f9 f10 f11 f12 f13 f14 f15 f16 f17 f18 f19 f20 f21 f22 f23
    f24 f25 f26 f27 f28 f29 f30 f31 x.

Definition fields : list (field t) := [
  Field "id" (on ID with_ID (decode_ptr 0%Z decode_int));
  Field "number" (on Number with_Number (decode_ptr 0%Z decode_int));
  Field "state" (on State with_State (decode_ptr "" decode_string));
  Field "state_reason" (on StateReason with_StateReason (decode_ptr "" decode_string));
  Field "locked" (on Locked with_Locked (decode_ptr false decode_bool));
  Field "title" (on Title with_Title (decode_ptr "" decode_string));
  Field "body" (on Body with_Body (decode_ptr "" decode_string));
  Field "author_association" (on AuthorAssociation with_AuthorAssociation (decode_ptr "" decode_string));
  Field "user" (on User with_User (decode_ptr User.zero User.decode));
  Field "labels" (on Labels with_Labels (decode_slice None (decode_ptr Label.zero Label.decode)));
  Field "assignee" (on Assignee with_Assignee (decode_ptr User.zero User.decode));
  Field "comments" (on Comments with_Comments (decode_ptr 0%Z decode_int));
  Field "closed_at" (on ClosedAt with_ClosedAt (decode_ptr Timestamp.zero Timestamp.decode));
  Field "created_at" (on CreatedAt with_CreatedAt (decode_ptr Timestamp.zero Timestamp.decode));
  Field "updated_at" (on UpdatedAt with_UpdatedAt (decode_ptr Timestamp.zero Timestamp.decode));
  Field "closed_by" (on ClosedBy with_ClosedBy (decode_ptr User.zero User.decode));
  Field "url" (on URL with_URL (decode_ptr "" decode_string));
  Field "html_url" (on HTMLURL with_HTMLURL (decode_ptr "" decode_string));
  Field "comments_url" (on CommentsURL with_CommentsURL (decode_ptr "" decode_string));
  Field "events_url" (on EventsURL with_EventsURL (decode_ptr "" decode_string));
  Field "labels_url" (on LabelsURL with_LabelsURL (decode_ptr "" decode_string));
  Field "repository_url" (on RepositoryURL with_RepositoryURL (decode_ptr "" decode_string));
  Field "milestone" (on Milestone with_Milestone (decode_ptr Milestone.zero Milestone.decode));
  Field "pull_request" (on PullRequestLinks with_PullRequestLinks (decode_ptr PullRequestLinks.zero PullRequestLinks.decode));
  Field "repository" (on Repository with_Repository (decode_ptr Repository.zero Repository.decode));
  Field "reactions" (on Reactions with_Reactions (decode_ptr Reactions.zero Reactions.decode));
  Field "assignees" (on Assignees with_Assignees (decode_slice None (decode_ptr User.zero User.decode)));
  Field "node_id" (on NodeID with_NodeID (decode_ptr "" decode_string));
  Field "draft" (on Draft with_Draft (decode_ptr false decode_bool));
  Field "type" (on Type_ with_Type_ (decode_ptr IssueType.zero IssueType.decode));
  Field "text_matches" (on TextMatches with_TextMatches (decode_slice None (decode_ptr TextMatch.zero TextMatch.decode)));
  Field "active_lock_reason" (on ActiveLockReason with_ActiveLockReason (decode_ptr "" decode_string))
].

Definition decode : json -> t -> t * option error := decode_struct "Issue" fields.

End Issue.
(** A request to create or edit an issue ([IssueRequest]).  The field [Type] of
    the source is [Type_] here. *)
Module IssueRequest.

Record t : Type := Build {
  Title : ptr string;
  Body : ptr string;
  Labels : ptr (slice string);
  Assignee : ptr string;
  State : ptr string;
  StateReason : ptr string;
  Milestone : ptr Z;
  Assignees : ptr (slice string);
  Type_ : ptr string
}.

Definition members (r : t) : list (string * json) :=
  omitempty_ptr "title" JString (Title r) ++
  omitempty_ptr "body" JString (Body r) ++
  omitempty_ptr "labels" enc_strings (Labels r) ++
  omitempty_ptr "assignee" JString (Assignee r) ++
  omitempty_ptr "state" JString (State r) ++
  omitempty_ptr "state_reason" JString (StateReason r) ++
  omitempty_ptr "milestone" JNumber (Milestone r) ++
  omitempty_ptr "assignees" enc_strings (Assignees r) ++
  omitempty_ptr "type" JString (Type_ r).

Definition encode (r : t) : json := JObject (members r).

End IssueRequest.

(** The body of [RemoveMilestone]: the anonymous struct
    [struct { Milestone *Milestone `json:"milestone"` }], whose one field is
    tagged without [omitempty]. *)
Module RemoveMilestoneBody.

Record t : Type := Build { Milestone : ptr Milestone.t }.

Definition zero : t := Build None.

Definition encode (b : t) : json :=
  JObject (always_ptr "milestone" Milestone.encode (Milestone b)).

End RemoveMilestoneBody.

(** The optional parameters of [Lock] ([LockIssueOptions]). *)
Module LockIssueOptions.

Record t : Type := Build { LockReason : string }.

Definition encode (o : t) : json :=
  JObject (omitempty_string "lock_reason" (LockReason o)).

End LockIssueOptions.

#[global] Instance Milestone_Marshaler : Marshaler Milestone.t := Milestone.encode.
#[global] Instance IssueRequest_Marshaler : Marshaler IssueRequest.t := IssueRequest.encode.
#[global] Instance RemoveMilestoneBody_Marshaler : Marshaler RemoveMilestoneBody.t :=
  RemoveMilestoneBody.encode.
#[global] Instance LockIssueOptions_Marshaler : Marshaler LockIssueOptions.t :=
  LockIssueOptions.encode.

#[global] Instance Issue_Unmarshaler : Unmarshaler Issue.t := Issue.decode.
#[global] Instance Milestone_Unmarshaler : Unmarshaler Milestone.t := Milestone.decode.
#[global] Instance Issues_Unmarshaler : Unmarshaler (slice (ptr Issue.t)) :=
  decode_slice None (decode_ptr Issue.zero Issue.decode).
#[global] Instance Milestones_Unmarshaler : Unmarshaler (slice (ptr Milestone.t)) :=
  decode_slice None (decode_ptr Milestone.zero Milestone.decode).

(** [IsPullRequest] reports whether the issue is also a pull request. *)
Definition IsPullRequest (i : Issue.t) : bool :=
  bool_decide (Issue.PullRequestLinks i <> None).

(** ** Query options *)

(** The query parameters of a URL, in the order they were added; a name may
    occur more than once. *)
Definition Values : Type := list (string * string).

(** Modelled from the spec: the query-string encoder is outside these two
    files.  It maps each non-empty field of an options record to a single
    parameter named by the field's [url] tag, a list-typed field tagged [comma]
    to its elements joined by commas, and the fields of an embedded fragment
    to parameters of the record that embeds it. *)
Class QueryEncoder (T : Type) : Type := queryValues : T -> Values.

Definition param_string (name : string) (s : string) : Values :=
  if String.eqb s "" then [] else [(name, s)].

Definition param_int (name : string) (n : Z) : Values :=
  if Z.eqb n 0 then [] else [(name, itoa n)].

Definition param_time (name : string) (t : Time) : Values :=
  if IsZero t then [] else [(name, RFC3339 t)].

Definition param_comma (name : string) (l : slice string) : Values :=
  match elems l with
  | [] => []
  | x :: xs => [(name, String.concat "," (x :: xs))]
  end.

(** Modelled from the spec: the offset-pagination fragment [ListOptions] is
    declared outside these two files; its page is an integer. *)
Module ListOptions.

Record t : Type := Build { Page : Z; PerPage : Z }.

Definition zero : t := Build 0 0.

Definition values (o : t) : Values :=
  param_int "page" (Page o) ++ param_int "per_page" (PerPage o).

End ListOptions.

(** Modelled from the spec: the cursor-pagination fragment [ListCursorOptions]
    is declared outside these two files; its page is a string, and [after],
    [before] and [cursor] carry the cursors. *)
Module ListCursorOptions.

Record t : Type := Build {
  Page : string;
  PerPage : Z;
  First : Z;
  Last : Z;
  After : string;
  Before : string;
  Cursor : string
}.

Definition zero : t := Build "" 0 0 0 "" "" "".

Definition values (o : t) : Values :=
  param_string "page" (Page o) ++
  param_int "per_page" (PerPage o) ++
  param_int "first" (First o) ++
  param_int "last" (Last o) ++
  param_string "after" (After o) ++
  param_string "before" (Before o) ++
  param_string "cursor" (Cursor o).

End ListCursorOptions.

(** The optional parameters of [List] and [ListByOrg] ([IssueListOptions]). *)
Module IssueListOptions.

Record t : Type := Build {
  Filter : string;
  State : string;
  Labels : slice string;
  Sort : string;
  Direction : string;
  Since : Time;
  ListCursorOptions : ListCursorOptions.t;
  ListOptions : ListOptions.t
}.

Definition values (o : t) : Values :=
  param_string "filter" (Filter o) ++
  param_string "state" (State o) ++
  param_comma "labels" (Labels o) ++
  param_string "sort" (Sort o) ++
  param_string "direction" (Direction o) ++
  param_time "since" (Since o) ++
  ListCursorOptions.values (ListCursorOptions o) ++
  ListOptions.values (ListOptions o).

End IssueListOptions.

(** The optional parameters of [ListByRepo] ([IssueListByRepoOptions]). *)
Module IssueListByRepoOptions.

Record t : Type := Build {
  Milestone : string;
  State : string;
  Assignee : string;
  Creator : string;
  Mentioned : string;
  Labels : slice string;
  Sort : string;
  Direction : string;
  Since : Time;
  ListCursorOptions : ListCursorOptions.t;
  ListOptions : ListOptions.t
}.

Definition values (o : t) : Values :=
  param_string "milestone" (Milestone o) ++
  param_string "state" (State o) ++
  param_string "assignee" (Assignee o) ++
  param_string "creator" (Creator o) ++
  param_string "mentioned" (Mentioned o) ++
  param_comma "labels" (Labels o) ++
  param_string "sort" (Sort o) ++
  param_string "direction" (Direction o) ++
  param_time "since" (Since o) ++
  ListCursorOptions.values (ListCursorOptions o) ++
  ListOptions.values (ListOptions o).

End IssueListByRepoOptions.

(** The optional parameters of [ListMilestones] ([MilestoneListOptions]). *)
Module MilestoneListOptions.

Record t : Type := Build {
  State : string;
  Sort : string;
  Direction : string;
  ListOptions : ListOptions.t
}.

Definition values (o : t) : Values :=
  param_string "state" (State o) ++
  param_string "sort" (Sort o) ++
  param_string "direction" (Direction o) ++
  ListOptions.values (ListOptions o).

End MilestoneListOptions.

#[global] Instance ListOptions_QueryEncoder : QueryEncoder ListOptions.t := ListOptions.values.
#[global] Instance ListCursorOptions_QueryEncoder : QueryEncoder ListCursorOptions.t :=
  ListCursorOptions.values.
#[global] Instance IssueListOptions_QueryEncoder : QueryEncoder IssueListOptions.t :=
  IssueListOptions.values.
#[global] Instance IssueListByRepoOptions_QueryEncoder : QueryEncoder IssueListByRepoOptions.t :=
  IssueListByRepoOptions.values.
#[global] Instance MilestoneListOptions_QueryEncoder : QueryEncoder MilestoneListOptions.t :=
  MilestoneListOptions.values.

(** ** The client collaborator *)

(** Modelled from the spec: [context.Context] belongs to the standard library;
    the operations only hand it on to [Do]. *)
Record Context : Type := { Cancelled : bool }.

(** Modelled from the spec: the request the client builds ([http.Request]),
    with its method, URL, header fields and body. *)
Record Request : Type := {
  Method : string;
  URL : string;
  Header : gmap string (list string);
  Body : option json
}.

(** [req.Header.Set(key, value)]: the field [key] now holds [value] alone. *)
Definition Header_Set (req : Request) (key value : string) : Request :=
  {| Method := Method req; URL := URL req;
     Header := <[key := [value]]> (Header req); Body := Body req |}.

(** Modelled from the spec: the transport metadata that comes back with every
    result ([Response] is declared outside these two files). *)
Record Response : Type := { StatusCode : Z }.

(** The options argument of [addOptions]: a pointer to an options record. *)
Inductive Options : Type :=
| OptionsOf {T : Type} {E : QueryEncoder T} (opts : ptr T).

(** The body argument of [NewRequest]: the untyped nil, or a pointer to a
    value with a JSON encoding. *)
Inductive RequestBody : Type :=
| NoBody
| BodyOf {T : Type} {M : Marshaler T} (body : ptr T).

(** The destination argument of [Do] when it is the untyped nil. *)
Inductive Discard : Type := discard.

#[global] Instance Discard_Unmarshaler : Unmarshaler Discard := fun _ v => (v, None).

(** The calls an operation makes to the shared client.  [Do] is given the
    pointee of its destination and answers with the pointee as it is after the
    call. *)
Inductive Call : Type :=
| addOptions (s : string) (opts : Options)
| NewRequest (method urlStr : string) (body : RequestBody)
| Do {T : Type} {U : Unmarshaler T} (ctx : Context) (req : Request) (v : T).

Definition Reply (c : Call) : Type :=
  match c with
  | addOptions _ _ => Result string
  | NewRequest _ _ _ => Result Request
  | @Do T _ _ _ _ => (T * ptr Response * option error)%type
  end.

(** An operation: the calls it makes, each continued with the client's answer. *)
Inductive Prog (A : Type) : Type :=
| Return (a : A)
| Invoke (c : Call) (k : Reply c -> Prog A).
Arguments Return {A} a.
Arguments Invoke {A} c k.

Fixpoint bind {A B : Type} (p : Prog A) (f : A -> Prog B) : Prog B :=
  match p with
  | Return a => f a
  | Invoke c k => Invoke c (fun r => bind (k r) f)
  end.

Definition call (c : Call) : Prog (Reply c) := Invoke c Return.

#[global] Instance Prog_ret : MRet Prog := @Return.
#[global] Instance Prog_bind : MBind Prog := fun A B f p => bind p f.

(** A client: what it answers to each call, from its state [W]. *)
Definition Client (W : Type) : Type := forall c : Call, W -> Reply c * W.

(** A call that was made, with the answer it got. *)
Definition Event : Type := { c : Call & Reply c }.

Definition called (ev : Event) : Call := projT1 ev.

(** Running an operation against a client: its result, the client's state
    afterwards, and the calls that were made, in order. *)
Fixpoint run {W A : Type} (cl : Client W) (p : Prog A) (w : W) : A * W * list Event :=
  match p with
  | Return a => (a, w, [])
  | Invoke c k =>
      let '(r, w1) := cl c w in
      let '(a, w2, tr) := run cl (k r) w1 in
      (a, w2, existT c r :: tr)
  end.

Definition result_of {W A : Type} (cl : Client W) (p : Prog A) (w : W) : A := (run cl p w).1.1.
Definition trace_of {W A : Type} (cl : Client W) (p : Prog A) (w : W) : list Event :=
  (run cl p w).2.

(** ** The operations of [IssuesService] *)

Section IssuesService.

(** The media type of the reactions preview ([mediaTypeReactionsPreview], a
    constant declared outside these two files). *)
Variable mediaTypeReactionsPreview : string.

Definition listIssues (ctx : Context) (u : string) (opts : ptr IssueListOptions.t)
  : Prog (slice (ptr Issue.t) * ptr Response * option error) :=
  r ← call (addOptions u (OptionsOf opts));
  match r with
  | failed err => Return (None, None, Some err)
  | ok u =>
      r ← call (NewRequest "GET" u NoBody);
      match r with
      | failed err => Return (None, None, Some err)
      | ok req =>
          let req := Header_Set req "Accept" mediaTypeReactionsPreview in
          '(issues, resp, err) ← call (Do ctx req (None : slice (ptr Issue.t)));
          match err with
          | Some err => Return (None, resp, Some err)
          | None => Return (issues, resp, None)
          end
      end
  end.

Definition List (ctx : Context) (all : bool) (opts : ptr IssueListOptions.t)
  : Prog (slice (ptr Issue.t) * ptr Response * option error) :=
  let u := if all then "issues" else "user/issues" in
  listIssues ctx u opts.

Definition ListByOrg (ctx : Context) (org : string) (opts : ptr IssueListOptions.t)
  : Prog (slice (ptr Issue.t) * ptr Response * option error) :=
  let u := "orgs/" +:+ org +:+ "/issues" in
  listIssues ctx u opts.

Definition ListByRepo (ctx : Context) (owner repo : string) (opts : ptr IssueListByRepoOptions.t)
  : Prog (slice (ptr Issue.t) * ptr Response * option error) :=
  let u := "repos/" +:+ owner +:+ "/" +:+ repo +:+ "/issues" in
  r ← call (addOptions u (OptionsOf opts));
  match r with
  | failed err => Return (None, None, Some err)
  | ok u =>
      r ← call (NewRequest "GET" u NoBody);
      match r with
      | failed err => Return (None, None, Some err)
      | ok req =>
          let req := Header_Set req "Accept" mediaTypeReactionsPreview in
          '(issues, resp, err) ← call (Do ctx req (None : slice (ptr Issue.t)));
          match err with
          | Some err => Return (None, resp, Some err)
          | None => Return (issues, resp, None)
          end
      end
  end.

Definition Get (ctx : Context) (owner repo : string) (number : Z)
  : Prog (ptr Issue.t * ptr Response * option error) :=
  let u := "repos/" +:+ owner +:+ "/" +:+ repo +:+ "/issues/" +:+ itoa number in
  r ← call (NewRequest "GET" u NoBody);
  match r with
  | failed err => Return (None, None, Some err)
  | ok req =>
      let req := Header_Set req "Accept" mediaTypeReactionsPreview in
      '(issue, resp, err) ← call (Do ctx req Issue.zero);
      match err with
      | Some err => Return (None, resp, Some err)
      | None => Return (Some issue, resp, None)
      end
  end.

Definition Create (ctx : Context) (owner repo : string) (issue : ptr IssueRequest.t)
  : Prog (ptr Issue.t * ptr Response * option error) :=
  let u := "repos/" +:+ owner +:+ "/" +:+ repo +:+ "/issues" in
  r ← call (NewRequest "POST" u (BodyOf issue));
  match r with
  | failed err => Return (None, None, Some err)
  | ok req =>
      '(i, resp, err) ← call (Do ctx req Issue.zero);
      match err with
      | Some err => Return (None, resp, Some err)
      | None => Return (Some i, resp, None)
      end
  end.

Definition Edit (ctx : Context) (owner repo : string) (number : Z) (issue : ptr IssueRequest.t)
  : Prog (ptr Issue.t * ptr Response * option error) :=
  let u := "repos/" +:+ owner +:+ "/" +:+ repo +:+ "/issues/" +:+ itoa number in
  r ← call (NewRequest "PATCH" u (BodyOf issue));
  match r with
  | failed err => Return (None, None, Some err)
  | ok req =>
      '(i, resp, err) ← call (Do ctx req Issue.zero);
      match err with
      | Some err => Return (None, resp, Some err)
      | None => Return (Some i, resp, None)
      end
  end.

Definition RemoveMilestone (ctx : Context) (owner repo : string) (issueNumber : Z)
  : Prog (ptr Issue.t * ptr Response * option error) :=
  let u := "repos/" +:+ owner +:+ "/" +:+ repo +:+ "/issues/" +:+ itoa issueNumber in
  r ← call (NewRequest "PATCH" u (BodyOf (Some RemoveMilestoneBody.zero)));
  match r with
  | failed err => Return (None, None, Some err)
  | ok req =>
      '(i, resp, err) ← call (Do ctx req Issue.zero);
      match err with
      | Some err => Return (None, resp, Some err)
      | None => Return (Some i, resp, None)
      end
  end.

Definition Lock (ctx : Context) (owner repo : string) (number : Z) (opts : ptr LockIssueOptions.t)
  : Prog (ptr Response * option error) :=
  let u := "repos/" +:+ owner +:+ "/" +:+ repo +:+ "/issues/" +:+ itoa number +:+ "/lock" in
  r ← call (NewRequest "PUT" u (BodyOf opts));
  match r with
  | failed err => Return (None, Some err)
  | ok req =>
      '(_, resp, err) ← call (Do ctx req discard);
      Return (resp, err)
  end.

Definition Unlock (ctx : Context) (owner repo : string) (number : Z)
  : Prog (ptr Response * option error) :=
  let u := "repos/" +:+ owner +:+ "/" +:+ repo +:+ "/issues/" +:+ itoa number +:+ "/lock" in
  r ← call (NewRequest "DELETE" u NoBody);
  match r with
  | failed err => Return (None, Some err)
  | ok req =>
      '(_, resp, err) ← call (Do ctx req discard);
      Return (resp, err)
  end.

Definition ListMilestones (ctx : Context) (owner repo : string) (opts : ptr MilestoneListOptions.t)
  : Prog (slice (ptr Milestone.t) * ptr Response * option error) :=
  let u := "repos/" +:+ owner +:+ "/" +:+ repo +:+ "/milestones" in
  r ← call (addOptions u (OptionsOf opts));
  match r with
  | failed err => Return (None, None, Some err)
  | ok u =>
      r ← call (NewRequest "GET" u NoBody);
      match r with
      | failed err => Return (None, None, Some err)
      | ok req =>
          '(milestones, resp, err) ← call (Do ctx req (None : slice (ptr Milestone.t)));
          match err with
          | Some err => Return (None, resp, Some err)
          | None => Return (milestones, resp, None)
          end
      end
  end.

Definition GetMilestone (ctx : Context) (owner repo : string) (number : Z)
  : Prog (ptr Milestone.t * ptr Response * option error) :=
  let u := "repos/" +:+ owner +:+ "/" +:+ repo +:+ "/milestones/" +:+ itoa number in
  r ← call (NewRequest "GET" u NoBody);
  match r with
  | failed err => Return (None, None, Some err)
  | ok req =>
      '(milestone, resp, err) ← call (Do ctx req Milestone.zero);
      match err with
      | Some err => Return (None, resp, Some err)
      | None => Return (Some milestone, resp, None)
      end
  end.

Definition CreateMilestone (ctx : Context) (owner repo : string) (milestone : ptr Milestone.t)
  : Prog (ptr Milestone.t * ptr Response * option error) :=
  let u := "repos/" +:+ owner +:+ "/" +:+ repo +:+ "/milestones" in
  r ← call (NewRequest "POST" u (BodyOf milestone));
  match r with
  | failed err => Return (None, None, Some err)
  | ok req =>
      '(m, resp, err) ← call (Do ctx req Milestone.zero);
      match err with
      | Some err => Return (None, resp, Some err)
      | None => Return (Some m, resp, None)
      end
  end.

Definition EditMilestone (ctx : Context) (owner repo : string) (number : Z)
    (milestone : ptr Milestone.t)
  : Prog (ptr Milestone.t * ptr Response * option error) :=
  let u := "repos/" +:+ owner +:+ "/" +:+ repo +:+ "/milestones/" +:+ itoa number in
  r ← call (NewRequest "PATCH" u (BodyOf milestone));
  match r with
  | failed err => Return (None, None, Some err)
  | ok req =>
      '(m, resp, err) ← call (Do ctx req Milestone.zero);
      match err with
      | Some err => Return (None, resp, Some err)
      | None => Return (Some m, resp, None)
      end
  end.

Definition DeleteMilestone (ctx : Context) (owner repo : string) (number : Z)
  : Prog (ptr Response * option error) :=
  let u := "repos/" +:+ owner +:+ "/" +:+ repo +:+ "/milestones/" +:+ itoa number in
  r ← call (NewRequest "DELETE" u NoBody);
  match r with
  | failed err => Return (None, Some err)
  | ok req =>
      '(_, resp, err) ← call (Do ctx req discard);
      Return (resp, err)
  end.

(** *** The operations as one family *)

(** A call of an exported operation, with its arguments. *)
Inductive Operation : Type :=
| OpList (all : bool) (opts : ptr IssueListOptions.t)
| OpListByOrg (org : string) (opts : ptr IssueListOptions.t)
| OpListByRepo (owner repo : string) (opts : ptr IssueListByRepoOptions.t)
| OpGet (owner repo : string) (number : Z)
| OpCreate (owner repo : string) (issue : ptr IssueRequest.t)
| OpEdit (owner repo : string) (number : Z) (issue : ptr IssueRequest.t)
| OpRemoveMilestone (owner repo : string) (issueNumber : Z)
| OpLock (owner repo : string) (number : Z) (opts : ptr LockIssueOptions.t)
| OpUnlock (owner repo : string) (number : Z)
| OpListMilestones (owner repo : string) (opts : ptr MilestoneListOptions.t)
| OpGetMilestone (owner repo : string) (number : Z)
| OpCreateMilestone (owner repo : string) (milestone : ptr Milestone.t)
| OpEditMilestone (owner repo : string) (number : Z) (milestone : ptr Milestone.t)
| OpDeleteMilestone (owner repo : string) (number : Z).

(** The decoded entity or list an operation returns, if it returns one. *)
Inductive Entity : Type :=
| no_entity
| issue_list (issues : slice (ptr Issue.t))
| one_issue (issue : ptr Issue.t)
| milestone_list (milestones : slice (ptr Milestone.t))
| one_milestone (milestone : ptr Milestone.t).

Definition entity_is_nil (v : Entity) : bool :=
  match v with
  | no_entity | issue_list None | one_issue None
  | milestone_list None | one_milestone None => true
  | _ => false
  end.

(** What an operation returns: the entity, the response and the error. *)
Record Outcome : Type := {
  entity : Entity;
  response : ptr Response;
  err : option error
}.

Definition returning {T : Type} (wrap : T -> Entity)
    (p : Prog (T * ptr Response * option error)) : Prog Outcome :=
  '(v, resp, e) ← p;
  Return {| entity := wrap v; response := resp; err := e |}.

Definition returning_none (p : Prog (ptr Response * option error)) : Prog Outcome :=
  '(resp, e) ← p;
  Return {| entity := no_entity; response := resp; err := e |}.

Definition perform (ctx : Context) (op : Operation) : Prog Outcome :=
  match op with
  | OpList all opts => returning issue_list (List ctx all opts)
  | OpListByOrg org opts => returning issue_list (ListByOrg ctx org opts)
  | OpListByRepo owner repo opts => returning issue_list (ListByRepo ctx owner repo opts)
  | OpGet owner repo number => returning one_issue (Get ctx owner repo number)
  | OpCreate owner repo issue => returning one_issue (Create ctx owner repo issue)
  | OpEdit owner repo number issue => returning one_issue (Edit ctx owner repo number issue)
  | OpRemoveMilestone owner repo issueNumber =>
      returning one_issue (RemoveMilestone ctx owner repo issueNumber)
  | OpLock owner repo number opts => returning_none (Lock ctx owner repo number opts)
  | OpUnlock owner repo number => returning_none (Unlock ctx owner repo number)
  | OpListMilestones owner repo opts =>
      returning milestone_list (ListMilestones ctx owner repo opts)
  | OpGetMilestone owner repo number =>
      returning one_milestone (GetMilestone ctx owner repo number)
  | OpCreateMilestone owner repo milestone =>
      returning one_milestone (CreateMilestone ctx owner repo milestone)
  | OpEditMilestone owner repo number milestone =>
      returning one_milestone (EditMilestone ctx owner repo number milestone)
  | OpDeleteMilestone owner repo number =>
      returning_none (DeleteMilestone ctx owner repo number)
  end.

(** The operations whose requests carry the reactions preview. *)
Definition issue_list_or_get (op : Operation) : bool :=
  match op with
  | OpList _ _ | OpListByOrg _ _ | OpListByRepo _ _ _ | OpGet _ _ _ => true
  | _ => false
  end.

End IssuesService.

(** ** Reading a trace *)

(** Modelled from the spec: [NewRequest] is outside these two files; it sends
    the JSON encoding of its body argument unless the argument is the untyped
    nil.  A nil pointer is not the untyped nil: held in the interface value of
    the argument it is a body like any other, and its encoding is [null]. *)
Definition body_document (b : RequestBody) : option json :=
  match b with
  | NoBody => None
  | BodyOf None => Some JNull
  | BodyOf (Some v) => Some (MarshalJSON v)
  end.

(** The request an event asked [NewRequest] to build: method, path and body. *)
Definition built (ev : Event) : option (string * string * option json) :=
  match called ev with
  | NewRequest method urlStr body => Some (method, urlStr, body_document body)
  | _ => None
  end.

(** The request [NewRequest] answered with. *)
Definition returned (ev : Event) : option Request :=
  match ev with
  | existT c r =>
      match c return Reply c -> option Request with
      | NewRequest _ _ _ => fun r => match r with ok req => Some req | failed _ => None end
      | _ => fun _ => None
      end r
  end.

(** The request an event handed to [Do]. *)
Definition sent (ev : Event) : option Request :=
  match called ev with
  | Do _ req _ => Some req
  | _ => None
  end.

(** The error with which building the request failed at this event. *)
Definition construction_error (ev : Event) : option error :=
  match ev with
  | existT c r =>
      match c return Reply c -> option error with
      | addOptions _ _ => fun r => match r with failed e => Some e | ok _ => None end
      | NewRequest _ _ _ => fun r => match r with failed e => Some e | ok _ => None end
      | Do _ _ _ => fun _ => None
      end r
  end.


(** ** Pagination fragments *)

(** The list operations. *)
Inductive ListOperation : Type :=
| listing_issues
| listing_issues_by_org
| listing_issues_by_repo
| listing_milestones.

(** The options record [T] accepts the parameters of the fragment [F]: whatever
    a value of the fragment encodes to, some value of the record encodes to
    that as well. *)
Definition accepts (T F : Type) `{QueryEncoder T} `{QueryEncoder F} : Prop :=
  forall f : F, exists o : T, queryValues f ⊆ queryValues o.

Definition accepts_fragment (F : Type) `{QueryEncoder F} (op : ListOperation) : Prop :=
  match op with
  | listing_issues | listing_issues_by_org => accepts IssueListOptions.t F
  | listing_issues_by_repo => accepts IssueListByRepoOptions.t F
  | listing_milestones => accepts MilestoneListOptions.t F
  end.

(** The names of the pagination parameters: those of the cursor fragment, two
    of which, [page] and [per_page], are those of the offset fragment too. *)
Definition pagination_names : list string :=
  ["page"; "per_page"; "first"; "last"; "after"; "before"; "cursor"].

(** The names that only the cursor fragment has. *)
Definition cursor_only_names : list string :=
  ["first"; "last"; "after"; "before"; "cursor"].

Definition is_pagination (name : string) : bool :=
  existsb (String.eqb name) pagination_names.

(** The pagination parameters among [vs], in their order. *)
Definition pagination (vs : Values) : Values :=
  List.filter (fun kv => is_pagination kv.1) vs.

(** ** A scripted client *)

(** Modelled from the spec: the shared client is outside these two files.  This
    one plays its part when an operation is run on concrete arguments: it
    answers [addOptions] and [NewRequest] as scripted, and [Do] by recording
    the request, asking the scripted server for a response, and decoding the
    body of a successful one into the destination. *)
Record Script : Type := {
  onOptions : string -> Values -> Result string;
  onRequest : string -> string -> option json -> Result Request;
  server : Request -> ptr Response * json * option error
}.

Definition scripted (sc : Script) : Client (list Request) :=
  fun c =>
    match c as c0 return list Request -> Reply c0 * list Request with
    | addOptions s (OptionsOf None) => fun w => (ok s, w)
    | addOptions s (OptionsOf (Some o)) => fun w => (onOptions sc s (queryValues o), w)
    | NewRequest method urlStr body => fun w => (onRequest sc method urlStr (body_document body), w)
    | @Do T U ctx req v => fun w =>
        let '(resp, doc, e) := server sc req in
        match e with
        | Some e => ((v, resp, Some e), w ++ [req])
        | None => let '(v', e') := UnmarshalJSON doc v in ((v', resp, e'), w ++ [req])
        end
    end.

(** [url.QueryEscape]: letters, digits and the marks - _ . ~ stand for
    themselves, a space becomes +, and any other byte its code in hexadecimal
    after a per cent sign. *)
Definition unreserved (a : ascii) : bool :=
  let n := Ascii.nat_of_ascii a in
  ((48 <=? n) && (n <=? 57) || (65 <=? n) && (n <=? 90) || (97 <=? n) && (n <=? 122)
   || (n =? 45) || (n =? 95) || (n =? 46) || (n =? 126))%nat.

Definition hex_digit (n : nat) : ascii :=
  Ascii.ascii_of_nat (if (n <? 10)%nat then 48 + n else 55 + n).

Fixpoint QueryEscape (s : string) : string :=
  match s with
  | EmptyString => EmptyString
  | String a rest =>
      if unreserved a then String a (QueryEscape rest)
      else if Ascii.eqb a " " then String "+" (QueryEscape rest)
      else
        let n := Ascii.nat_of_ascii a in
        String "%" (String (hex_digit (n / 16)) (String (hex_digit (n mod 16)) (QueryEscape rest)))
  end.

(** A parameter put into a list that is sorted by name, after the parameters
    of the same name that are already there. *)
Fixpoint insert_by_name (kv : string * string) (vs : Values) : Values :=
  match vs with
  | [] => [kv]
  | kv' :: rest =>
      if String.leb kv'.1 kv.1 then kv' :: insert_by_name kv rest else kv :: kv' :: rest
  end.

Definition sort_by_name (vs : Values) : Values :=
  fold_left (fun acc kv => insert_by_name kv acc) vs [].

(** [url.Values.Encode]: the parameters sorted by name, each as [name=value]
    with both escaped, joined by [&]. *)
Definition Encode (vs : Values) : string :=
  String.concat "&"
    ((fun kv => QueryEscape kv.1 +:+ "=" +:+ QueryEscape kv.2) <$> sort_by_name vs).

(** A script under which every request is built and answered with [doc]. *)
Definition answering (doc : json) : Script := {|
  onOptions := fun s vs => ok (if bool_decide (vs = []) then s else s +:+ "?" +:+ Encode vs);
  onRequest := fun method urlStr body =>
    ok {| Method := method; URL := urlStr; Header := ∅; Body := body |};
  server := fun _ => (Some {| StatusCode := 200 |}, doc, None)
|}.

(** The request an event asked [NewRequest] to build, with the body argument
    as the operation passed it. *)
Definition requested (ev : Event) : option (string * string * RequestBody) :=
  match called ev with
  | NewRequest method urlStr body => Some (method, urlStr, body)
  | _ => None
  end.

(** The parameters of [vs] that are named [key]. *)
Definition named (key : string) (vs : Values) : Values :=
  filter (B := list (string * string)) (fun kv => kv.1 = key) vs.

(** A script under which no request can be built: [NewRequest] fails with [e]. *)
Definition refusing (e : error) : Script := {|
  onOptions := fun s vs => ok s;
  onRequest := fun _ _ _ => failed e;
  server := fun _ => (None, JNull, Some "unreachable")
|}.

(** Case analysis on the answers of the client, one call after the other. *)
Ltac answers cl :=
  repeat match goal with
  | |- context [cl ?c ?w] =>
      let r := fresh "r" in
      let w' := fresh "w" in
      destruct (cl c w) as [r w']; cbn in r;
      repeat match goal with
      | x : Result _ |- _ => destruct x
      | x : (_ * _)%type |- _ => destruct x
      | x : option error |- _ => destruct x
      end; cbn
  end.

(** ** What the source says of each operation *)

(** The HTTP method of an operation, from its [//meta:operation] line. *)
Definition method_of (op : Operation) : string :=
  match op with
  | OpList _ _ | OpListByOrg _ _ | OpListByRepo _ _ _ | OpGet _ _ _
  | OpListMilestones _ _ _ | OpGetMilestone _ _ _ => "GET"
  | OpCreate _ _ _ | OpCreateMilestone _ _ _ => "POST"
  | OpEdit _ _ _ _ | OpRemoveMilestone _ _ _ | OpEditMilestone _ _ _ _ => "PATCH"
  | OpLock _ _ _ _ => "PUT"
  | OpUnlock _ _ _ | OpDeleteMilestone _ _ _ => "DELETE"
  end.

(** The path of an operation, from its [//meta:operation] line with the
    arguments in place of the parameters and without the leading slash. *)
Definition endpoint (op : Operation) : string :=
  match op with
  | OpList true _ => "issues"
  | OpList false _ => "user/issues"
  | OpListByOrg org _ => "orgs/" +:+ org +:+ "/issues"
  | OpListByRepo owner repo _ | OpCreate owner repo _ =>
      "repos/" +:+ owner +:+ "/" +:+ repo +:+ "/issues"
  | OpGet owner repo number | OpEdit owner repo number _ | OpRemoveMilestone owner repo number =>
      "repos/" +:+ owner +:+ "/" +:+ repo +:+ "/issues/" +:+ itoa number
  | OpLock owner repo number _ | OpUnlock owner repo number =>
      "repos/" +:+ owner +:+ "/" +:+ repo +:+ "/issues/" +:+ itoa number +:+ "/lock"
  | OpListMilestones owner repo _ | OpCreateMilestone owner repo _ =>
      "repos/" +:+ owner +:+ "/" +:+ repo +:+ "/milestones"
  | OpGetMilestone owner repo number | OpEditMilestone owner repo number _
  | OpDeleteMilestone owner repo number =>
      "repos/" +:+ owner +:+ "/" +:+ repo +:+ "/milestones/" +:+ itoa number
  end.

(** The operations that take query options. *)
Definition list_options (op : Operation) : option Options :=
  match op with
  | OpList _ opts | OpListByOrg _ opts => Some (OptionsOf opts)
  | OpListByRepo _ _ opts => Some (OptionsOf opts)
  | OpListMilestones _ _ opts => Some (OptionsOf opts)
  | _ => None
  end.

(** The operations that return one entity, by a pointer to it. *)
Definition returns_one_entity (op : Operation) : bool :=
  match op with
  | OpGet _ _ _ | OpCreate _ _ _ | OpEdit _ _ _ _ | OpRemoveMilestone _ _ _
  | OpGetMilestone _ _ _ | OpCreateMilestone _ _ _ | OpEditMilestone _ _ _ _ => true
  | _ => false
  end.

(** A value together with its type. *)
Definition Any : Type := { T : Type & T }.

(** The zero value [Do] is to decode into: the nil slice of a list, a new
    entity, or nothing. *)
Definition fresh_destination (op : Operation) : Any :=
  match op with
  | OpList _ _ | OpListByOrg _ _ | OpListByRepo _ _ _ =>
      existT (slice (ptr Issue.t)) None
  | OpGet _ _ _ | OpCreate _ _ _ | OpEdit _ _ _ _ | OpRemoveMilestone _ _ _ =>
      existT Issue.t Issue.zero
  | OpListMilestones _ _ _ => existT (slice (ptr Milestone.t)) None
  | OpGetMilestone _ _ _ | OpCreateMilestone _ _ _ | OpEditMilestone _ _ _ _ =>
      existT Milestone.t Milestone.zero
  | OpLock _ _ _ _ | OpUnlock _ _ _ | OpDeleteMilestone _ _ _ => existT Discard discard
  end.

(** The value behind a returned entity. *)
Definition payload (v : Entity) : option Any :=
  match v with
  | issue_list s => Some (existT (slice (ptr Issue.t)) s)
  | one_issue (Some i) => Some (existT Issue.t i)
  | milestone_list s => Some (existT (slice (ptr Milestone.t)) s)
  | one_milestone (Some m) => Some (existT Milestone.t m)
  | _ => None
  end.

(** *** More readings of a trace *)

(** The path an event gave to [addOptions] or to [NewRequest]. *)
Definition path_asked (ev : Event) : option string :=
  match called ev with
  | addOptions s _ => Some s
  | NewRequest _ urlStr _ => Some urlStr
  | Do _ _ _ => None
  end.

(** The options an event gave to [addOptions]. *)
Definition options_asked (ev : Event) : option Options :=
  match called ev with
  | addOptions _ opts => Some opts
  | _ => None
  end.

(** The URL [addOptions] answered with. *)
Definition options_reply (ev : Event) : option string :=
  match ev with
  | existT c r =>
      match c return Reply c -> option string with
      | addOptions _ _ => fun r => match r with ok u => Some u | failed _ => None end
      | _ => fun _ => None
      end r
  end.

(** The context an event gave to [Do]. *)
Definition do_context (ev : Event) : option Context :=
  match called ev with
  | Do ctx _ _ => Some ctx
  | _ => None
  end.

(** The destination an event gave to [Do], as it was before the call. *)
Definition destination (ev : Event) : option Any :=
  match called ev with
  | @Do T _ _ _ v => Some (existT T v)
  | _ => None
  end.

(** What [Do] answered with: the destination after the call, and the response
    and error. *)
Definition decoded (ev : Event) : option Any :=
  match ev with
  | existT c r =>
      match c return Reply c -> option Any with
      | @Do T _ _ _ _ => fun r => Some (existT T r.1.1)
      | _ => fun _ => None
      end r
  end.

Definition do_reply (ev : Event) : option (ptr Response * option error) :=
  match ev with
  | existT c r =>
      match c return Reply c -> option (ptr Response * option error) with
      | Do _ _ _ => fun r => Some (r.1.2, r.2)
      | _ => fun _ => None
      end r
  end.

(** *** Milestones that come from the wire *)

Definition in_int64 (p : ptr Z) : Prop :=
  forall n, p = Some n -> int64_range n = true.

Fixpoint ascii_only (s : string) : bool :=
  match s with
  | EmptyString => true
  | String a rest => (Ascii.nat_of_ascii a <? 128)%nat && ascii_only rest
  end.

(** Text that [encoding/json] writes and reads back byte for byte. *)
Definition is_ascii (p : ptr string) : Prop :=
  forall s, p = Some s -> ascii_only s = true.

(** A milestone as a caller fills it in for [CreateMilestone] or
    [EditMilestone]: numbers of the size of their Go types, ASCII text, and
    no creator and no timestamps. *)
Definition Milestone_well_formed (m : Milestone.t) : Prop :=
  (in_int64 (Milestone.ID m) /\ in_int64 (Milestone.Number m)
   /\ in_int64 (Milestone.OpenIssues m) /\ in_int64 (Milestone.ClosedIssues m))
  /\ (is_ascii (Milestone.URL m) /\ is_ascii (Milestone.HTMLURL m)
      /\ is_ascii (Milestone.LabelsURL m) /\ is_ascii (Milestone.State m)
      /\ is_ascii (Milestone.Title m) /\ is_ascii (Milestone.Description m)
      /\ is_ascii (Milestone.NodeID m))
  /\ (Milestone.Creator m = None /\ Milestone.CreatedAt m = None
      /\ Milestone.UpdatedAt m = None /\ Milestone.ClosedAt m = None
      /\ Milestone.DueOn m = None).

(** * Properties *)

(** ** Sanity checks *)

Example itoa_examples : itoa 42 = "42" /\ itoa 0 = "0" /\ itoa (-7) = "-7".
Proof. repeat split; reflexivity. Qed.

Example foldName_examples :
  foldName "Pull_Request" = "PULL_REQUEST"
  /\ names_field "pull_request" "PULL_REQUEST" = true
  /\ names_field "pull_request" "pull_requests" = false.
Proof. repeat split; reflexivity. Qed.

Example IssueRequest_encode_example :
  MarshalJSON {| IssueRequest.Title := Some "t"; IssueRequest.Body := None;
                 IssueRequest.Labels := Some (Some ["a"; "b"]); IssueRequest.Assignee := None;
                 IssueRequest.State := None; IssueRequest.StateReason := None;
                 IssueRequest.Milestone := Some 3; IssueRequest.Assignees := None;
                 IssueRequest.Type_ := None |}
  = JObject [("title", JString "t"); ("labels", JArray [JString "a"; JString "b"]);
             ("milestone", JNumber 3)].
Proof. reflexivity. Qed.

Example Milestone_decode_example :
  UnmarshalJSON (JObject [("Number", JNumber 4); ("title", JString "v1"); ("x", JNull)])
                Milestone.zero
  = (Milestone.with_Title (Some "v1") (Milestone.with_Number (Some 4) Milestone.zero), None).
Proof. reflexivity. Qed.

Example Get_against_script :
  let cl := scripted (answering (JObject [("number", JNumber 1)])) in
  let p := Get "preview" {| Cancelled := false |} "o" "r" 1 in
  result_of cl p []
  = (Some (Issue.with_Number (Some 1) Issue.zero), Some {| StatusCode := 200 |}, None)
  /\ omap sent (trace_of cl p [])
     = [{| Method := "GET"; URL := "repos/o/r/issues/1";
           Header := {["Accept" := ["preview"]]}; Body := None |}].
Proof. split; vm_compute; reflexivity. Qed.

Example ListMilestones_query :
  omap built
    (trace_of (scripted (answering JNull))
       (ListMilestones {| Cancelled := false |} "o" "r"
          (Some {| MilestoneListOptions.State := "closed"; MilestoneListOptions.Sort := "due_on";
                   MilestoneListOptions.Direction := "";
                   MilestoneListOptions.ListOptions :=
                     {| ListOptions.Page := 2; ListOptions.PerPage := 0 |} |})) [])
  = [("GET", "repos/o/r/milestones?page=2&sort=due_on&state=closed", None)].
Proof. vm_compute. reflexivity. Qed.

Example ListByRepo_bad_path :
  let cl := scripted {| onOptions := fun _ _ => failed "invalid URL escape";
                        onRequest := onRequest (answering JNull);
                        server := server (answering JNull) |} in
  let p := ListByRepo "preview" {| Cancelled := false |} "%zz" "r"
             (Some {| IssueListByRepoOptions.Milestone := "*"; IssueListByRepoOptions.State := "";
                      IssueListByRepoOptions.Assignee := ""; IssueListByRepoOptions.Creator := "";
                      IssueListByRepoOptions.Mentioned := ""; IssueListByRepoOptions.Labels := None;
                      IssueListByRepoOptions.Sort := ""; IssueListByRepoOptions.Direction := "";
                      IssueListByRepoOptions.Since := {| IsZero := true; RFC3339 := "" |};
                      IssueListByRepoOptions.ListCursorOptions := ListCursorOptions.zero;
                      IssueListByRepoOptions.ListOptions := ListOptions.zero |}) in
  run cl p [] = ((None, None, Some "invalid URL escape"), [], trace_of cl p [])
  /\ omap built (trace_of cl p []) = [] /\ omap sent (trace_of cl p []) = [].
Proof. repeat split. Qed.

Example Encode_examples :
  Encode [("state", "open"); ("labels", "bug,p1"); ("page", "2"); ("page", "x y")]
  = "labels=bug%2Cp1&page=2&page=x+y&state=open".
Proof. reflexivity. Qed.

(** ** Requests *)

Lemma Header_Set_lookup (req : Request) (key value : string) :
  Header (Header_Set req key value) !! key = Some [value].
Proof. cbn. apply lookup_insert_eq. Qed.

Section Requests.

Variable mediaTypeReactionsPreview : string.
Context {W : Type}.
Variable cl : Client W.

(** C1.  For every owner, repo and issue number, [RemoveMilestone] asks for one
    request, a PATCH to [repos/{owner}/{repo}/issues/{issueNumber}] whose JSON
    body is the object with the member [milestone] set to [null] (the member
    is there, not left out), and the request it sends is the one it was
    given. *)
Theorem RemoveMilestone_body (w : W) (ctx : Context) (owner repo : string) (issueNumber : Z) :
  let tr := trace_of cl (RemoveMilestone ctx owner repo issueNumber) w in
  omap built tr =
    [("PATCH", "repos/" +:+ owner +:+ "/" +:+ repo +:+ "/issues/" +:+ itoa issueNumber,
      Some (JObject [("milestone", JNull)]))]
  /\ omap sent tr = omap returned tr.
Proof.
  unfold trace_of, RemoveMilestone. cbn. answers cl; auto.
Qed.

(** C4.  For every owner, repo and number, [Get] asks for one request, a GET of
    [repos/{owner}/{repo}/issues/{number}] without a body, and what it sends is
    that request with the header [Accept] set to the reactions preview. *)
Theorem Get_request (w : W) (ctx : Context) (owner repo : string) (number : Z) :
  let tr := trace_of cl (Get mediaTypeReactionsPreview ctx owner repo number) w in
  omap built tr =
    [("GET", "repos/" +:+ owner +:+ "/" +:+ repo +:+ "/issues/" +:+ itoa number, None)]
  /\ omap sent tr
     = (fun req => Header_Set req "Accept" mediaTypeReactionsPreview) <$> omap returned tr
  /\ forall req, req ∈ omap sent tr ->
       Header req !! "Accept" = Some [mediaTypeReactionsPreview].
Proof.
  unfold trace_of, Get. cbn. answers cl; repeat split; auto; intros req Hreq.
  all: try (apply list_elem_of_singleton in Hreq as ->; apply Header_Set_lookup).
  all: by apply elem_of_nil in Hreq.
Qed.


(** C6, as amended.  [Lock] asks for one request, a PUT to
    [repos/{owner}/{repo}/issues/{number}/lock].  With options whose
    [LockReason] is [spam] its JSON body is the object with the one member
    [lock_reason] set to [spam]; with no options the body argument is the nil
    options pointer, and the body is the JSON document [null].  Either way the
    request it sends is the one it was given. *)
Theorem Lock_body (w : W) (ctx : Context) (owner repo : string) (number : Z) :
  let path :=
    "repos/" +:+ owner +:+ "/" +:+ repo +:+ "/issues/" +:+ itoa number +:+ "/lock" in
  let spam := Some {| LockIssueOptions.LockReason := "spam" |} in
  omap built (trace_of cl (Lock ctx owner repo number spam) w)
    = [("PUT", path, Some (JObject [("lock_reason", JString "spam")]))]
  /\ omap requested (trace_of cl (Lock ctx owner repo number None) w)
    = [("PUT", path, BodyOf (None : ptr LockIssueOptions.t))]
  /\ omap built (trace_of cl (Lock ctx owner repo number None) w)
    = [("PUT", path, Some JNull)]
  /\ forall opts : ptr LockIssueOptions.t,
       omap sent (trace_of cl (Lock ctx owner repo number opts) w)
       = omap returned (trace_of cl (Lock ctx owner repo number opts) w).
Proof.
  unfold trace_of, Lock. cbn. repeat split; try intros opts; answers cl; auto.
Qed.

(** C3.  Of all the operations, the issue lists ([List], [ListByOrg],
    [ListByRepo]) and [Get] send the request they were given with the header
    [Accept] set to the reactions preview, and every other operation sends the
    request as it was given.  Unless building the request fails, the operation
    is given one request and sends one. *)
Theorem preview_header_operations (w : W) (ctx : Context) (op : Operation) :
  let tr := trace_of cl (perform mediaTypeReactionsPreview ctx op) w in
  omap sent tr =
    (if issue_list_or_get op
     then (fun req => Header_Set req "Accept" mediaTypeReactionsPreview) <$> omap returned tr
     else omap returned tr)
  /\ (issue_list_or_get op = true ->
      forall req, req ∈ omap sent tr ->
        Header req !! "Accept" = Some [mediaTypeReactionsPreview])
  /\ (omap construction_error tr = [] ->
      exists given,
        omap returned tr = [given]
        /\ omap sent tr
           = [if issue_list_or_get op
              then Header_Set given "Accept" mediaTypeReactionsPreview else given]).
Proof.
  unfold trace_of.
  destruct op; cbn -[Header_Set]; try destruct all; cbn -[Header_Set];
    answers cl; (split; [reflexivity|]); (split; [|intros Hc; first [discriminate Hc | eauto]]);
    intros Hop req Hreq; try discriminate Hop.
  all: try (apply list_elem_of_singleton in Hreq as ->; apply Header_Set_lookup).
  all: by apply elem_of_nil in Hreq.
Qed.

(** C8.  For every operation, when [addOptions] or [NewRequest] answers with an
    error, the operation returns that error with a nil response and a nil
    entity, the failing call is the last one it makes, and [Do] is not
    called. *)
Theorem construction_failure_returns (w : W) (ctx : Context) (op : Operation) (e : error) :
  let out := result_of cl (perform mediaTypeReactionsPreview ctx op) w in
  let tr := trace_of cl (perform mediaTypeReactionsPreview ctx op) w in
  e ∈ omap construction_error tr ->
  entity_is_nil (entity out) = true /\ response out = None /\ err out = Some e
  /\ omap sent tr = [] /\ last tr ≫= construction_error = Some e.
Proof.
  unfold trace_of, result_of.
  destruct op; cbn; try destruct all; cbn; answers cl; intros He.
  all: try (by apply elem_of_nil in He).
  all: apply list_elem_of_singleton in He as ->; repeat split; reflexivity.
Qed.

(** C10.  For every operation, when it returns an error the entity or list it
    returns is nil, whatever [Do] left in the destination. *)
Theorem error_means_nil_entity (w : W) (ctx : Context) (op : Operation) :
  let out := result_of cl (perform mediaTypeReactionsPreview ctx op) w in
  err out <> None -> entity_is_nil (entity out) = true.
Proof.
  unfold result_of.
  destruct op; cbn; try destruct all; cbn; answers cl; intros He; try reflexivity.
  all: by destruct He.
Qed.

End Requests.

(** ** Query parameters *)

Lemma named_app (key : string) (vs1 vs2 : Values) :
  named key (vs1 ++ vs2) = named key vs1 ++ named key vs2.
Proof. apply filter_app. Qed.

Lemma named_param_string (key name s : string) :
  name <> key -> named key (param_string name s) = [].
Proof.
  intros Hne. unfold param_string, named. destruct (String.eqb s ""); [reflexivity|]. cbv iota.
  rewrite filter_cons, decide_False by exact Hne. reflexivity.
Qed.

Lemma named_param_int (key name : string) (n : Z) :
  name <> key -> named key (param_int name n) = [].
Proof.
  intros Hne. unfold param_int, named. destruct (Z.eqb n 0); [reflexivity|]. cbv iota.
  rewrite filter_cons, decide_False by exact Hne. reflexivity.
Qed.

Lemma named_param_time (key name : string) (t : Time) :
  name <> key -> named key (param_time name t) = [].
Proof.
  intros Hne. unfold param_time, named. destruct (IsZero t); [reflexivity|]. cbv iota.
  rewrite filter_cons, decide_False by exact Hne. reflexivity.
Qed.

Lemma named_param_comma (name : string) (l : list string) :
  l <> [] -> named name (param_comma name (Some l)) = [(name, String.concat "," l)].
Proof.
  intros Hl. destruct l as [|x xs]; [done|].
  change (param_comma name (Some (x :: xs))) with [(name, String.concat "," (x :: xs))].
  unfold named. rewrite filter_cons, decide_True by reflexivity. reflexivity.
Qed.

(** Whatever the other fields hold, a non-empty [Labels] is the one parameter
    [labels], its elements joined by commas. *)
Lemma IssueListByRepoOptions_labels (o : IssueListByRepoOptions.t) (l : list string) :
  IssueListByRepoOptions.Labels o = Some l -> l <> [] ->
  named "labels" (queryValues o) = [("labels", String.concat "," l)].
Proof.
  intros Hl Hne.
  unfold queryValues, IssueListByRepoOptions_QueryEncoder, IssueListByRepoOptions.values,
    ListCursorOptions.values, ListOptions.values.
  rewrite ?named_app, ?named_param_string, ?named_param_int, ?named_param_time
    by discriminate.
  rewrite Hl, named_param_comma by exact Hne. reflexivity.
Qed.

Lemma IssueListOptions_labels (o : IssueListOptions.t) (l : list string) :
  IssueListOptions.Labels o = Some l -> l <> [] ->
  named "labels" (queryValues o) = [("labels", String.concat "," l)].
Proof.
  intros Hl Hne.
  unfold queryValues, IssueListOptions_QueryEncoder, IssueListOptions.values,
    ListCursorOptions.values, ListOptions.values.
  rewrite ?named_app, ?named_param_string, ?named_param_int, ?named_param_time
    by discriminate.
  rewrite Hl, named_param_comma by exact Hne. reflexivity.
Qed.

(** C7.  An [IssueListByRepoOptions] whose [Labels] is the list [bug], [p1]
    encodes, whatever its other fields hold, to exactly one parameter named
    [labels], with the value [bug,p1]. *)
Theorem labels_bug_p1 (o : IssueListByRepoOptions.t) :
  IssueListByRepoOptions.Labels o = Some ["bug"; "p1"] ->
  named "labels" (queryValues o) = [("labels", "bug,p1")].
Proof.
  intros Hl. rewrite (IssueListByRepoOptions_labels o _ Hl) by discriminate. reflexivity.
Qed.

(** *** Pagination *)

Lemma elem_of_param_string (kv : string * string) (name s : string) :
  kv ∈ param_string name s -> kv.1 = name.
Proof.
  unfold param_string. destruct (String.eqb s "").
  - intros H. by apply elem_of_nil in H.
  - intros H. apply list_elem_of_singleton in H as ->. reflexivity.
Qed.

Lemma elem_of_param_int (kv : string * string) (name : string) (n : Z) :
  kv ∈ param_int name n -> kv.1 = name.
Proof.
  unfold param_int. destruct (Z.eqb n 0).
  - intros H. by apply elem_of_nil in H.
  - intros H. apply list_elem_of_singleton in H as ->. reflexivity.
Qed.

(** No milestone options encode to a parameter named [after]. *)
Lemma MilestoneListOptions_no_after (o : MilestoneListOptions.t) (v : string) :
  ("after", v) ∉ queryValues o.
Proof.
  unfold queryValues, MilestoneListOptions_QueryEncoder, MilestoneListOptions.values,
    ListOptions.values.
  rewrite !elem_of_app. intros H.
  destruct H as [H|[H|[H|[H|H]]]];
    first [ apply elem_of_param_string in H | apply elem_of_param_int in H ]; discriminate H.
Qed.

Lemma offset_accepted (op : ListOperation) : accepts_fragment ListOptions.t op.
Proof.
  destruct op; intros f.
  - exists {| IssueListOptions.Filter := ""; IssueListOptions.State := "";
              IssueListOptions.Labels := None; IssueListOptions.Sort := "";
              IssueListOptions.Direction := "";
              IssueListOptions.Since := {| IsZero := true; RFC3339 := "" |};
              IssueListOptions.ListCursorOptions := ListCursorOptions.zero;
              IssueListOptions.ListOptions := f |}.
    intros kv Hkv. exact Hkv.
  - exists {| IssueListOptions.Filter := ""; IssueListOptions.State := "";
              IssueListOptions.Labels := None; IssueListOptions.Sort := "";
              IssueListOptions.Direction := "";
              IssueListOptions.Since := {| IsZero := true; RFC3339 := "" |};
              IssueListOptions.ListCursorOptions := ListCursorOptions.zero;
              IssueListOptions.ListOptions := f |}.
    intros kv Hkv. exact Hkv.
  - exists {| IssueListByRepoOptions.Milestone := ""; IssueListByRepoOptions.State := "";
              IssueListByRepoOptions.Assignee := ""; IssueListByRepoOptions.Creator := "";
              IssueListByRepoOptions.Mentioned := ""; IssueListByRepoOptions.Labels := None;
              IssueListByRepoOptions.Sort := ""; IssueListByRepoOptions.Direction := "";
              IssueListByRepoOptions.Since := {| IsZero := true; RFC3339 := "" |};
              IssueListByRepoOptions.ListCursorOptions := ListCursorOptions.zero;
              IssueListByRepoOptions.ListOptions := f |}.
    intros kv Hkv. exact Hkv.
  - exists {| MilestoneListOptions.State := ""; MilestoneListOptions.Sort := "";
              MilestoneListOptions.Direction := ""; MilestoneListOptions.ListOptions := f |}.
    intros kv Hkv. exact Hkv.
Qed.


Lemma cursor_accepted_by_issue_options : accepts IssueListOptions.t ListCursorOptions.t.
Proof.
  intros f.
  exists {| IssueListOptions.Filter := ""; IssueListOptions.State := "";
            IssueListOptions.Labels := None; IssueListOptions.Sort := "";
            IssueListOptions.Direction := "";
            IssueListOptions.Since := {| IsZero := true; RFC3339 := "" |};
            IssueListOptions.ListCursorOptions := f;
            IssueListOptions.ListOptions := ListOptions.zero |}.
  intros kv Hkv. apply (elem_of_app (ListCursorOptions.values f) []). left. exact Hkv.
Qed.

Lemma cursor_accepted_by_repo_options : accepts IssueListByRepoOptions.t ListCursorOptions.t.
Proof.
  intros f.
  exists {| IssueListByRepoOptions.Milestone := ""; IssueListByRepoOptions.State := "";
            IssueListByRepoOptions.Assignee := ""; IssueListByRepoOptions.Creator := "";
            IssueListByRepoOptions.Mentioned := ""; IssueListByRepoOptions.Labels := None;
            IssueListByRepoOptions.Sort := ""; IssueListByRepoOptions.Direction := "";
            IssueListByRepoOptions.Since := {| IsZero := true; RFC3339 := "" |};
            IssueListByRepoOptions.ListCursorOptions := f;
            IssueListByRepoOptions.ListOptions := ListOptions.zero |}.
  intros kv Hkv. apply (elem_of_app (ListCursorOptions.values f) []). left. exact Hkv.
Qed.

Lemma cursor_rejected_by_milestone_options :
  ~ accepts MilestoneListOptions.t ListCursorOptions.t.
Proof.
  intros Hacc.
  destruct (Hacc {| ListCursorOptions.Page := ""; ListCursorOptions.PerPage := 0;
                    ListCursorOptions.First := 0; ListCursorOptions.Last := 0;
                    ListCursorOptions.After := "Y3Vyc29y"; ListCursorOptions.Before := "";
                    ListCursorOptions.Cursor := "" |}) as [o Ho].
  apply (MilestoneListOptions_no_after o "Y3Vyc29y"), Ho.
  apply list_elem_of_singleton. reflexivity.
Qed.

Lemma pagination_app (vs1 vs2 : Values) :
  pagination (vs1 ++ vs2) = pagination vs1 ++ pagination vs2.
Proof. apply List.filter_app. Qed.

Lemma pagination_param_string (name s : string) :
  pagination (param_string name s) = if is_pagination name then param_string name s else [].
Proof.
  unfold param_string, pagination. destruct (String.eqb s ""); cbn -[is_pagination];
    by destruct (is_pagination name).
Qed.

Lemma pagination_param_int (name : string) (n : Z) :
  pagination (param_int name n) = if is_pagination name then param_int name n else [].
Proof.
  unfold param_int, pagination. destruct (Z.eqb n 0); cbn -[is_pagination];
    by destruct (is_pagination name).
Qed.

Lemma pagination_param_time (name : string) (t : Time) :
  pagination (param_time name t) = if is_pagination name then param_time name t else [].
Proof.
  unfold param_time, pagination. destruct (IsZero t); cbn -[is_pagination];
    by destruct (is_pagination name).
Qed.

Lemma pagination_param_comma (name : string) (l : slice string) :
  pagination (param_comma name l) = if is_pagination name then param_comma name l else [].
Proof.
  unfold param_comma, pagination. destruct (elems l); cbn -[is_pagination];
    by destruct (is_pagination name).
Qed.

Lemma IssueListOptions_pagination (o : IssueListOptions.t) :
  pagination (queryValues o)
  = queryValues (IssueListOptions.ListCursorOptions o)
    ++ queryValues (IssueListOptions.ListOptions o).
Proof.
  unfold queryValues, IssueListOptions_QueryEncoder, ListCursorOptions_QueryEncoder,
    ListOptions_QueryEncoder, IssueListOptions.values, ListCursorOptions.values,
    ListOptions.values.
  rewrite !pagination_app, !pagination_param_string, !pagination_param_int,
    !pagination_param_time, !pagination_param_comma.
  reflexivity.
Qed.

Lemma IssueListByRepoOptions_pagination (o : IssueListByRepoOptions.t) :
  pagination (queryValues o)
  = queryValues (IssueListByRepoOptions.ListCursorOptions o)
    ++ queryValues (IssueListByRepoOptions.ListOptions o).
Proof.
  unfold queryValues, IssueListByRepoOptions_QueryEncoder, ListCursorOptions_QueryEncoder,
    ListOptions_QueryEncoder, IssueListByRepoOptions.values, ListCursorOptions.values,
    ListOptions.values.
  rewrite !pagination_app, !pagination_param_string, !pagination_param_int,
    !pagination_param_time, !pagination_param_comma.
  reflexivity.
Qed.

Lemma MilestoneListOptions_pagination (o : MilestoneListOptions.t) :
  pagination (queryValues o) = queryValues (MilestoneListOptions.ListOptions o).
Proof.
  unfold queryValues, MilestoneListOptions_QueryEncoder, ListOptions_QueryEncoder,
    MilestoneListOptions.values, ListOptions.values.
  rewrite !pagination_app, !pagination_param_string, !pagination_param_int.
  reflexivity.
Qed.

(** Milestone options encode to parameters of five names, none of which is
    the cursor fragment's alone. *)
Lemma MilestoneListOptions_no_cursor_name (o : MilestoneListOptions.t) (kv : string * string) :
  kv ∈ queryValues o -> kv.1 ∉ cursor_only_names.
Proof.
  unfold queryValues, MilestoneListOptions_QueryEncoder, MilestoneListOptions.values,
    ListOptions.values, cursor_only_names.
  rewrite !elem_of_app. intros H.
  destruct H as [H|[H|[H|[H|H]]]];
    first [ apply elem_of_param_string in H | apply elem_of_param_int in H ];
    rewrite H; rewrite !not_elem_of_cons; repeat split; first [discriminate | apply not_elem_of_nil].
Qed.

(** C2, as amended.  The two issue options records compose both fragments: the
    pagination parameters they encode are those of their cursor fragment
    followed by those of their offset fragment.  The milestone options compose
    the offset fragment alone: their pagination parameters are those of their
    offset fragment, and no parameter they encode has a name of the cursor
    fragment alone ([first], [last], [after], [before], [cursor]).  So every
    list operation accepts the offset parameters, and it accepts the cursor
    parameters exactly when it is not the milestone listing. *)
Theorem pagination_fragments :
  (forall o : IssueListOptions.t,
     pagination (queryValues o)
     = queryValues (IssueListOptions.ListCursorOptions o)
       ++ queryValues (IssueListOptions.ListOptions o))
  /\ (forall o : IssueListByRepoOptions.t,
        pagination (queryValues o)
        = queryValues (IssueListByRepoOptions.ListCursorOptions o)
          ++ queryValues (IssueListByRepoOptions.ListOptions o))
  /\ (forall o : MilestoneListOptions.t,
        pagination (queryValues o) = queryValues (MilestoneListOptions.ListOptions o))
  /\ (forall (o : MilestoneListOptions.t) (kv : string * string),
        kv ∈ queryValues o -> kv.1 ∉ cursor_only_names)
  /\ (forall op : ListOperation,
        accepts_fragment ListOptions.t op
        /\ (accepts_fragment ListCursorOptions.t op <-> op <> listing_milestones)).
Proof.
  split; [exact IssueListOptions_pagination|].
  split; [exact IssueListByRepoOptions_pagination|].
  split; [exact MilestoneListOptions_pagination|].
  split; [exact MilestoneListOptions_no_cursor_name|].
  intros op. split; [apply offset_accepted|].
  destruct op; cbn; split; try discriminate; intros H.
  1-2: apply cursor_accepted_by_issue_options.
  - apply cursor_accepted_by_repo_options.
  - by apply cursor_rejected_by_milestone_options in H.
  - done.
Qed.

(** C2 as stated fails: not every list operation accepts both fragments, since
    no milestone options encode to the cursor parameter [after]. *)
Lemma milestone_listing_has_no_cursor :
  ~ (forall op : ListOperation,
       accepts_fragment ListOptions.t op /\ accepts_fragment ListCursorOptions.t op).
Proof.
  intros H. destruct (H listing_milestones) as [_ Hc].
  exact (cursor_rejected_by_milestone_options Hc).
Qed.


(** ** Decoding an issue *)

Lemma first_error_None (e1 e2 : option error) :
  first_error e1 e2 = None -> e1 = None /\ e2 = None.
Proof. destruct e1; cbn; [discriminate|auto]. Qed.

Lemma names_field_fold (tag key : string) :
  names_field tag key = true -> foldName tag = foldName key.
Proof.
  unfold names_field. intros H. apply orb_prop in H as [H|H].
  - apply String.eqb_eq in H. by rewrite H.
  - by apply String.eqb_eq in H.
Qed.

Lemma lookup_field_Some {S : Type} (fs : list (field S)) (key : string) (f : field S) :
  lookup_field fs key = Some f -> In f fs /\ names_field (tag f) key = true.
Proof.
  unfold lookup_field, names_field.
  destruct (List.find _ fs) as [f1|] eqn:H1.
  - intros [= <-]. apply List.find_some in H1 as [Hin Heq]. rewrite Heq. auto.
  - intros H2. apply List.find_some in H2 as [Hin Heq]. rewrite Heq, orb_true_r. auto.
Qed.

Lemma lookup_field_None {S : Type} (fs : list (field S)) (key : string) :
  lookup_field fs key = None -> forall f, In f fs -> names_field (tag f) key = false.
Proof.
  unfold lookup_field, names_field.
  destruct (List.find _ fs) as [f1|] eqn:H1; [discriminate|].
  intros H2 f Hin.
  rewrite (List.find_none _ _ H1 f Hin), (List.find_none _ _ H2 f Hin). reflexivity.
Qed.

(** No other field of an issue has a name that folds like [pull_request]. *)
Lemma Issue_fields_fold (f : field Issue.t) :
  In f Issue.fields -> foldName (tag f) = foldName "pull_request" -> tag f = "pull_request".
Proof.
  assert (Hall : forallb (fun t => implb (String.eqb (foldName t) (foldName "pull_request"))
                                         (String.eqb t "pull_request"))
                         (List.map tag Issue.fields) = true) by (vm_compute; reflexivity).
  intros Hin Hfold.
  rewrite forallb_forall in Hall. specialize (Hall (tag f) (List.in_map tag _ _ Hin)).
  apply String.eqb_eq in Hfold. rewrite Hfold in Hall. by apply String.eqb_eq.
Qed.

(** Storing into the field [pull_request] decodes into the links; storing into
    any other field leaves the links as they are. *)
Lemma Issue_fields_store :
  Forall (fun f => forall (v : json) (i : Issue.t),
            if String.eqb (tag f) "pull_request"
            then ((store f v i).1.(Issue.PullRequestLinks), (store f v i).2)
                 = decode_ptr PullRequestLinks.zero PullRequestLinks.decode v
                     (Issue.PullRequestLinks i)
            else (store f v i).1.(Issue.PullRequestLinks) = Issue.PullRequestLinks i)
         Issue.fields.
Proof.
  unfold Issue.fields.
  repeat (apply Forall_cons; split;
    [intros v i; cbn [tag store String.eqb Ascii.eqb Bool.eqb]; unfold on;
     match goal with |- context [decode_ptr ?z ?d v ?p] => destruct (decode_ptr z d v p) end
     || match goal with |- context [decode_slice ?z ?d v ?p] => destruct (decode_slice z d v p) end;
     destruct i; reflexivity|]).
  apply Forall_nil_2.
Qed.


Lemma Issue_has_pull_request_field :
  exists f : field Issue.t, In f Issue.fields /\ tag f = "pull_request".
Proof.
  assert (Hex : existsb (fun t => String.eqb t "pull_request") (List.map tag Issue.fields) = true)
    by (vm_compute; reflexivity).
  apply existsb_exists in Hex as (t & Hin & Heq).
  apply List.in_map_iff in Hin as (f & <- & Hin).
  apply String.eqb_eq in Heq. eauto.
Qed.

Lemma decode_ptr_is_Some {T : Type} (zero : T) (dec : json -> T -> T * option error)
    (v : json) (p p' : ptr T) (e : option error) :
  decode_ptr zero dec v p = (p', e) -> (is_Some p' <-> v <> JNull).
Proof.
  unfold decode_ptr. destruct v.
  1: { intros [= <- _]. split; [by intros [? ?]|done]. }
  all: destruct (dec _ _); intros [= <- _]; split; eauto; discriminate.
Qed.

(** After the members of an object are decoded without an error, the links are
    there exactly when the last member for [pull_request] is not [null]; with
    no such member they are as they were. *)
Lemma decode_members_links (ms : list (string * json)) (s i : Issue.t) :
  decode_members Issue.fields ms s = (i, None) ->
  is_Some (Issue.PullRequestLinks i) <->
  match last_member "pull_request" ms with
  | Some v => v <> JNull
  | None => is_Some (Issue.PullRequestLinks s)
  end.
Proof.
  revert s i. induction ms as [|[k v] ms IH]; intros s i Hdec; cbn [decode_members] in Hdec.
  - by injection Hdec as <-.
  - cbn [last_member].
    destruct (lookup_field Issue.fields k) as [f|] eqn:Hf.
    + destruct (store f v s) as [s1 e1] eqn:Hs.
      destruct (decode_members Issue.fields ms s1) as [s2 e2] eqn:Hrest.
      injection Hdec as <- He. apply first_error_None in He as [-> ->].
      specialize (IH _ _ Hrest).
      destruct (last_member "pull_request" ms) as [v'|]; [exact IH|].
      rewrite IH. clear IH Hrest.
      apply lookup_field_Some in Hf as [Hin Hname].
      pose proof (proj1 (List.Forall_forall _ _) Issue_fields_store f Hin v s) as Hstore.
      rewrite Hs in Hstore. cbn [fst snd] in Hstore.
      destruct (names_field "pull_request" k) eqn:Hk.
      * apply names_field_fold in Hname, Hk.
        rewrite (Issue_fields_fold f Hin) in Hstore by congruence.
        cbn in Hstore. symmetry in Hstore. by apply decode_ptr_is_Some in Hstore.
      * destruct (String.eqb (tag f) "pull_request") eqn:Htag.
        -- apply String.eqb_eq in Htag. congruence.
        -- by rewrite Hstore.
    + specialize (IH _ _ Hdec).
      destruct (last_member "pull_request" ms) as [v'|]; [exact IH|].
      destruct Issue_has_pull_request_field as (f & Hin & Htag).
      pose proof (lookup_field_None _ _ Hf f Hin) as Hk. rewrite Htag in Hk.
      by rewrite Hk.
Qed.

(** C9.  [IsPullRequest] is true exactly when [PullRequestLinks] is not nil;
    and for an issue decoded without an error from a JSON object into a fresh
    [Issue], it is true exactly when the object has a member for [pull_request]
    whose value (the last such member's) is not [null]. *)
Theorem IsPullRequest_spec :
  (forall i : Issue.t, IsPullRequest i = true <-> Issue.PullRequestLinks i <> None)
  /\ (forall (ms : list (string * json)) (i : Issue.t),
        UnmarshalJSON (JObject ms) Issue.zero = (i, None) ->
        (IsPullRequest i = true <->
         exists v, last_member "pull_request" ms = Some v /\ v <> JNull)).
Proof.
  split.
  - intros i. unfold IsPullRequest. apply bool_decide_eq_true.
  - intros ms i Hdec. apply decode_members_links in Hdec.
    unfold IsPullRequest. rewrite bool_decide_eq_true, not_eq_None_Some, Hdec.
    destruct (last_member "pull_request" ms) as [v|].
    + split; [eauto|]. by intros (v' & [= <-] & Hv).
    + cbn. split; [by intros [? ?]|]. by intros (v' & ? & _).
Qed.


Example IsPullRequest_examples :
  let decoded ms := (UnmarshalJSON (JObject ms) Issue.zero).1 in
  IsPullRequest (decoded [("number", JNumber 7); ("pull_request", JObject [])]) = true
  /\ IsPullRequest (decoded [("number", JNumber 7)]) = false
  /\ IsPullRequest (decoded [("number", JNumber 7); ("pull_request", JNull)]) = false.
Proof. repeat split; vm_compute; reflexivity. Qed.

(** ** The theorems at concrete inputs *)


Lemma labels_bug_p1_witness :
  let o := {| IssueListByRepoOptions.Milestone := ""; IssueListByRepoOptions.State := "open";
              IssueListByRepoOptions.Assignee := ""; IssueListByRepoOptions.Creator := "";
              IssueListByRepoOptions.Mentioned := "";
              IssueListByRepoOptions.Labels := Some ["bug"; "p1"];
              IssueListByRepoOptions.Sort := ""; IssueListByRepoOptions.Direction := "";
              IssueListByRepoOptions.Since := {| IsZero := true; RFC3339 := "" |};
              IssueListByRepoOptions.ListCursorOptions := ListCursorOptions.zero;
              IssueListByRepoOptions.ListOptions :=
                {| ListOptions.Page := 2; ListOptions.PerPage := 0 |} |} in
  queryValues o = [("state", "open"); ("labels", "bug,p1"); ("page", "2")]
  /\ named "labels" (queryValues o) = [("labels", "bug,p1")].
Proof.
  split; [reflexivity|]. apply labels_bug_p1. reflexivity.
Defined.

Lemma construction_failure_returns_witness :
  let cl := scripted (refusing "baseURL must have a trailing slash") in
  let ctx := {| Cancelled := false |} in
  let op := OpGet "o" "r" 1 in
  result_of cl (perform "preview" ctx op) []
  = {| entity := one_issue None; response := None;
       err := Some "baseURL must have a trailing slash" |}
  /\ omap sent (trace_of cl (perform "preview" ctx op) []) = [].
Proof.
  split; [reflexivity|].
  refine (proj1 (proj2 (proj2 (proj2
    (construction_failure_returns "preview"
       (scripted (refusing "baseURL must have a trailing slash")) []
       {| Cancelled := false |} (OpGet "o" "r" 1) "baseURL must have a trailing slash" _))))).
  apply list_elem_of_singleton. reflexivity.
Defined.

Lemma error_means_nil_entity_witness :
  let cl := scripted (answering (JObject [("title", JString "t"); ("number", JString "x")])) in
  let out := result_of cl (perform "preview" {| Cancelled := false |} (OpGet "o" "r" 1)) [] in
  err out <> None /\ entity_is_nil (entity out) = true.
Proof.
  assert (H : err (result_of
                (scripted (answering (JObject [("title", JString "t"); ("number", JString "x")])))
                (perform "preview" {| Cancelled := false |} (OpGet "o" "r" 1)) []) <> None)
    by (vm_compute; discriminate).
  split; [exact H|].
  exact (error_means_nil_entity "preview" _ [] {| Cancelled := false |} (OpGet "o" "r" 1) H).
Defined.

Lemma IsPullRequest_spec_witness :
  let ms := [("number", JNumber 7); ("Pull_Request", JObject [("url", JString "u")])] in
  let i := (UnmarshalJSON (JObject ms) Issue.zero).1 in
  UnmarshalJSON (JObject ms) Issue.zero = (i, None) /\ IsPullRequest i = true.
Proof.
  intros ms i.
  assert (H : UnmarshalJSON (JObject ms) Issue.zero = (i, None)) by (vm_compute; reflexivity).
  split; [exact H|].
  apply (proj2 IsPullRequest_spec ms i H).
  exists (JObject [("url", JString "u")]). split; [reflexivity|discriminate].
Defined.

(** * Further properties of the operations *)

Section Operations.

Variable mediaTypeReactionsPreview : string.
Context {W : Type}.
Variable cl : Client W.

(** X1.  Every operation asks for at most one request, with the HTTP method of
    its [//meta:operation] line; the operations with GET and DELETE give it no
    body. *)
Theorem operation_method (w : W) (ctx : Context) (op : Operation) :
  let tr := trace_of cl (perform mediaTypeReactionsPreview ctx op) w in
  (length (omap built tr) <= 1)%nat
  /\ (forall method urlStr body, (method, urlStr, body) ∈ omap built tr ->
        method = method_of op
        /\ (method_of op = "GET" \/ method_of op = "DELETE" -> body = None)).
Proof.
  unfold trace_of.
  destruct op; cbn; try destruct all; cbn; answers cl; (split; [lia|]);
    intros method urlStr body Hin.
  all: try (by apply elem_of_nil in Hin).
  all: apply list_elem_of_singleton in Hin; injection Hin as -> -> ->.
  all: split; [reflexivity|]; intros [H|H]; first [reflexivity | discriminate H].
Qed.

(** X2.  The first call of every operation carries the path of its
    [//meta:operation] line.  For the four lists it is the call to
    [addOptions], with that path and the options pointer of the caller, and
    the only such call; for the others it is the call to [NewRequest], with
    the method and that path, and they never call [addOptions]. *)
Theorem operation_endpoint (w : W) (ctx : Context) (op : Operation) :
  let tr := trace_of cl (perform mediaTypeReactionsPreview ctx op) w in
  head (omap path_asked tr) = Some (endpoint op)
  /\ omap options_asked tr = option_list (list_options op)
  /\ match list_options op with
     | Some opts => called <$> head tr = Some (addOptions (endpoint op) opts)
     | None =>
         exists body, called <$> head tr = Some (NewRequest (method_of op) (endpoint op) body)
     end.
Proof.
  unfold trace_of.
  destruct op; cbn; try destruct all; cbn; answers cl; repeat split;
    first [reflexivity | eexists; reflexivity].
Qed.

(** X3.  For the four lists the URL given to [NewRequest] is the one
    [addOptions] answered with, whatever it is. *)
Theorem list_url_from_addOptions (w : W) (ctx : Context) (op : Operation) :
  let tr := trace_of cl (perform mediaTypeReactionsPreview ctx op) w in
  is_Some (list_options op) ->
  (fun b => b.1.2) <$> omap built tr = omap options_reply tr.
Proof.
  unfold trace_of.
  destruct op; cbn; try destruct all; cbn; intros [o Ho]; try discriminate Ho;
    answers cl; reflexivity.
Qed.

(** X4.  No operation retries: it calls [Do] at most once, and exactly once
    when the request was built. *)
Theorem at_most_one_Do (w : W) (ctx : Context) (op : Operation) :
  let tr := trace_of cl (perform mediaTypeReactionsPreview ctx op) w in
  (length (omap sent tr) <= 1)%nat
  /\ length (omap sent tr) = length (omap returned tr)
  /\ (length tr <= 3)%nat.
Proof.
  unfold trace_of.
  destruct op; cbn; try destruct all; cbn; answers cl; repeat split; lia.
Qed.

(** X5.  When [Do] was called, the operation returns the response and the error
    of [Do] as they are. *)
Theorem Do_outcome_passed_through (w : W) (ctx : Context) (op : Operation)
    (resp : ptr Response) (e : option error) :
  let out := result_of cl (perform mediaTypeReactionsPreview ctx op) w in
  let tr := trace_of cl (perform mediaTypeReactionsPreview ctx op) w in
  (resp, e) ∈ omap do_reply tr -> response out = resp /\ err out = e.
Proof.
  unfold trace_of, result_of.
  destruct op; cbn; try destruct all; cbn; answers cl; intros Hin.
  all: try (by apply elem_of_nil in Hin).
  all: apply list_elem_of_singleton in Hin; inversion Hin; subst; split; reflexivity.
Qed.

(** X6.  When an operation returns without an error, the entity or list it
    returns is the destination as [Do] left it. *)
Theorem success_returns_decoded (w : W) (ctx : Context) (op : Operation) :
  let out := result_of cl (perform mediaTypeReactionsPreview ctx op) w in
  let tr := trace_of cl (perform mediaTypeReactionsPreview ctx op) w in
  err out = None ->
  match payload (entity out) with
  | Some v => omap decoded tr = [v]
  | None => entity out = no_entity
  end.
Proof.
  unfold trace_of, result_of.
  destruct op; cbn; try destruct all; cbn; answers cl; intros He;
    first [discriminate He | reflexivity].
Qed.

(** X7.  An operation that returns one entity returns a nil pointer exactly
    when it returns an error. *)
Theorem one_entity_nil_iff_error (w : W) (ctx : Context) (op : Operation) :
  let out := result_of cl (perform mediaTypeReactionsPreview ctx op) w in
  returns_one_entity op = true ->
  (entity_is_nil (entity out) = true <-> err out <> None).
Proof.
  unfold result_of.
  destruct op; cbn; try discriminate; intros _; answers cl; split; intros H;
    first [reflexivity | discriminate H | by destruct H].
Qed.

(** X8.  [Do] gets the context of the caller, and a destination that holds the
    zero value: the nil slice for a list, a new entity for one entity, nothing
    for the operations that return none. *)
Theorem Do_context_and_destination (w : W) (ctx : Context) (op : Operation) :
  let tr := trace_of cl (perform mediaTypeReactionsPreview ctx op) w in
  Forall (fun c => c = ctx) (omap do_context tr)
  /\ Forall (fun d => d = fresh_destination op) (omap destination tr).
Proof.
  unfold trace_of.
  destruct op; cbn; try destruct all; cbn; answers cl; split;
    repeat constructor.
Qed.

(** X9.  An operation that returns without an error has called [Do], once. *)
Theorem success_means_sent (w : W) (ctx : Context) (op : Operation) :
  let out := result_of cl (perform mediaTypeReactionsPreview ctx op) w in
  let tr := trace_of cl (perform mediaTypeReactionsPreview ctx op) w in
  err out = None -> exists req, omap sent tr = [req].
Proof.
  unfold trace_of, result_of.
  destruct op; cbn; try destruct all; cbn; answers cl; intros H;
    first [discriminate H | eexists; reflexivity].
Qed.

End Operations.

Section Headers.

Variable mediaTypeReactionsPreview : string.
Context {W : Type}.
Variable cl : Client W.

(** X10.  The request an operation sends differs from the one it was given in
    the header [Accept] at most: method, URL, body and every other header
    field are the same. *)
Theorem only_Accept_is_touched (w : W) (ctx : Context) (op : Operation) :
  let tr := trace_of cl (perform mediaTypeReactionsPreview ctx op) w in
  Forall2 (fun req given =>
             Method req = Method given /\ URL req = URL given /\ Body req = Body given
             /\ forall key, key <> "Accept" -> Header req !! key = Header given !! key)
          (omap sent tr) (omap returned tr).
Proof.
  unfold trace_of.
  destruct op; cbn -[Header_Set]; try destruct all; cbn -[Header_Set]; answers cl;
    repeat constructor; intros key Hkey; cbn; by rewrite ?lookup_insert_ne.
Qed.

End Headers.

(** ** Bodies and paths *)

Lemma elem_of_omitempty_ptr {T : Type} (name : string) (enc : T -> json) (p : ptr T)
    (k : string) (v : json) :
  (k, v) ∈ omitempty_ptr name enc p <-> k = name /\ exists x, p = Some x /\ v = enc x.
Proof.
  destruct p as [x|]; cbn.
  - rewrite list_elem_of_singleton. split.
    + intros [= -> ->]. eauto.
    + intros (-> & y & [= <-] & ->). reflexivity.
  - split; [intros H; by apply elem_of_nil in H|]. by intros (_ & y & Hy & _).
Qed.


Section Bodies.

Context {W : Type}.
Variable cl : Client W.

Lemma Get_built (preview : string) (w : W) (ctx : Context) (owner repo : string) (number : Z) :
  omap built (trace_of cl (Get preview ctx owner repo number) w)
  = [("GET", "repos/" +:+ owner +:+ "/" +:+ repo +:+ "/issues/" +:+ itoa number, None)].
Proof. unfold trace_of, Get. cbn. answers cl; reflexivity. Qed.

(** X11.  [Edit] sends the encoding of its [IssueRequest], in which the member
    [milestone] is there only when the field is set, and is then a number: no
    [Edit] sends the body of [RemoveMilestone]. *)
Theorem Edit_cannot_clear_milestone (w : W) (ctx : Context) (owner repo : string) (number : Z)
    (r : IssueRequest.t) :
  omap built (trace_of cl (Edit ctx owner repo number (Some r)) w)
  = [("PATCH", "repos/" +:+ owner +:+ "/" +:+ repo +:+ "/issues/" +:+ itoa number,
      Some (JObject (IssueRequest.members r)))]
  /\ (forall v, ("milestone", v) ∈ IssueRequest.members r <->
                exists n, IssueRequest.Milestone r = Some n /\ v = JNumber n)
  /\ MarshalJSON r <> MarshalJSON RemoveMilestoneBody.zero.
Proof.
  assert (Hm : forall v, ("milestone", v) ∈ IssueRequest.members r <->
                         exists n, IssueRequest.Milestone r = Some n /\ v = JNumber n).
  { intros v. unfold IssueRequest.members. rewrite !elem_of_app, !elem_of_omitempty_ptr.
    split; [|by eauto 12].
    intros H. repeat destruct H as [H|H]; destruct H as [Hk Hx]; try discriminate Hk.
    exact Hx. }
  split; [|split; [exact Hm|]].
  - unfold trace_of, Edit. cbn. answers cl; reflexivity.
  - intros Heq. injection Heq as Heq.
    assert (Hin : ("milestone", JNull) ∈ IssueRequest.members r)
      by (rewrite Heq; apply list_elem_of_singleton; reflexivity).
    apply Hm in Hin as (n & _ & Hn). discriminate Hn.
Qed.

(** X12.  [Lock] with options sends an object that holds the reason under
    [lock_reason], and the empty object when the reason is the empty string. *)
Theorem Lock_any_reason (w : W) (ctx : Context) (owner repo : string) (number : Z)
    (o : LockIssueOptions.t) :
  omap built (trace_of cl (Lock ctx owner repo number (Some o)) w)
  = [("PUT", "repos/" +:+ owner +:+ "/" +:+ repo +:+ "/issues/" +:+ itoa number +:+ "/lock",
      Some (JObject (if bool_decide (LockIssueOptions.LockReason o = "") then []
                     else [("lock_reason", JString (LockIssueOptions.LockReason o))])))].
Proof.
  assert (He : MarshalJSON o
               = JObject (if bool_decide (LockIssueOptions.LockReason o = "") then []
                          else [("lock_reason", JString (LockIssueOptions.LockReason o))])).
  { unfold MarshalJSON, LockIssueOptions_Marshaler, LockIssueOptions.encode, omitempty_string.
    destruct (String.eqb_spec (LockIssueOptions.LockReason o) "") as [Heq|Hne].
    - by rewrite bool_decide_eq_true_2.
    - by rewrite bool_decide_eq_false_2. }
  unfold trace_of, Lock. cbn. answers cl; by rewrite He.
Qed.

(** X13.  For a given owner and repository, issues of different numbers are
    asked for at different paths. *)
Theorem issue_number_decides_path (preview : string) (w w' : W) (ctx : Context)
    (owner repo : string) (number number' : Z) :
  number <> number' ->
  omap built (trace_of cl (Get preview ctx owner repo number) w)
  <> omap built (trace_of cl (Get preview ctx owner repo number') w').
Proof.
  intros Hne. rewrite !Get_built. intros [= H]. apply Hne.
  do 5 apply String.app_inj in H. by apply pretty_Z_inj in H.
Qed.


End Bodies.

(** ** Milestones there and back *)

Lemma first_error_assoc (e1 e2 e3 : option error) :
  first_error (first_error e1 e2) e3 = first_error e1 (first_error e2 e3).
Proof. by destruct e1. Qed.

(** Decoding one member that was written for a field that is still nil stores
    the value into the field. *)
Lemma decode_written_member {S F : Type} (fs : list (field S)) (name : string)
    (get : S -> ptr F) (put : ptr F -> S -> S) (zero : F)
    (dec : json -> F -> F * option error) (enc : F -> json)
    (x : ptr F) (rest : list (string * json)) (s : S) :
  lookup_field fs name = Some (Field name (on get put (decode_ptr zero dec))) ->
  get s = None ->
  put None s = s ->
  (forall v, x = Some v -> enc v <> JNull /\ dec (enc v) zero = (v, None)) ->
  decode_members fs (omitempty_ptr name enc x ++ rest) s = decode_members fs rest (put x s).
Proof.
  intros Hf Hget Hput Hdec. destruct x as [v|]; cbn [omitempty_ptr app].
  - destruct (Hdec v eq_refl) as [Hnull Hv].
    cbn [decode_members]. rewrite Hf. cbn [store]. unfold on, decode_ptr.
    rewrite Hget. cbn [default]. destruct (enc v); try done.
    all: rewrite Hv; by destruct (decode_members fs rest (put (Some v) s)).
  - by rewrite Hput.
Qed.

Lemma decode_int_in_range (p : ptr Z) :
  in_int64 p -> forall v, p = Some v -> JNumber v <> JNull /\ decode_int (JNumber v) 0 = (v, None).
Proof. intros Hp v Hv. split; [done|]. cbn. by rewrite (Hp v Hv). Qed.

Lemma decode_string_any (p : ptr string) (v : string) :
  p = Some v -> JString v <> JNull /\ decode_string (JString v) "" = (v, None).
Proof. done. Qed.

(** X15.  A milestone with numbers of the size of their Go types, ASCII text
    and no creator or timestamps survives the wire: decoding what
    [CreateMilestone] and [EditMilestone] send for it into a new milestone
    gives the milestone back, without an error. *)
Theorem Milestone_round_trip (m : Milestone.t) :
  Milestone_well_formed m ->
  UnmarshalJSON (MarshalJSON m) Milestone.zero = (m, None).
Proof.
  intros [(Hid & Hnumber & Hopen & Hclosed) [_ (Hcreator & Hcreated & Hupdated & Hclosedat & Hdue)]].
  destruct m as [url html labels id number state title description creator openi closedi
                 created updated closedat due node].
  cbn [Milestone.ID Milestone.Number Milestone.OpenIssues Milestone.ClosedIssues
       Milestone.Creator Milestone.CreatedAt Milestone.UpdatedAt Milestone.ClosedAt
       Milestone.DueOn] in *.
  subst creator created updated closedat due.
  unfold UnmarshalJSON, Milestone_Unmarshaler, MarshalJSON, Milestone_Marshaler,
    Milestone.decode, Milestone.encode, decode_struct, Milestone.members.
  cbn [Milestone.URL Milestone.HTMLURL Milestone.LabelsURL Milestone.ID Milestone.Number
       Milestone.State Milestone.Title Milestone.Description Milestone.Creator
       Milestone.OpenIssues Milestone.ClosedIssues Milestone.CreatedAt Milestone.UpdatedAt
       Milestone.ClosedAt Milestone.DueOn Milestone.NodeID].
  rewrite <- (app_nil_r (omitempty_ptr "node_id" JString node)).
  repeat (erewrite decode_written_member;
    [ | reflexivity | reflexivity | reflexivity
      | first [ apply decode_string_any | by apply decode_int_in_range
              | intros v Hv; discriminate Hv ] ];
    cbv beta iota delta [Milestone.with_URL Milestone.with_HTMLURL Milestone.with_LabelsURL
      Milestone.with_ID Milestone.with_Number Milestone.with_State Milestone.with_Title
      Milestone.with_Description Milestone.with_Creator Milestone.with_OpenIssues
      Milestone.with_ClosedIssues Milestone.with_CreatedAt Milestone.with_UpdatedAt
      Milestone.with_ClosedAt Milestone.with_DueOn Milestone.with_NodeID Milestone.zero]).
  reflexivity.
Qed.

(** ** The further theorems at concrete inputs *)

Lemma list_url_from_addOptions_witness :
  let cl := scripted (answering JNull) in
  let op := OpListMilestones "o" "r"
              (Some {| MilestoneListOptions.State := "all"; MilestoneListOptions.Sort := "";
                       MilestoneListOptions.Direction := "";
                       MilestoneListOptions.ListOptions := ListOptions.zero |}) in
  let tr := trace_of cl (perform "preview" {| Cancelled := false |} op) [] in
  omap options_reply tr = ["repos/o/r/milestones?state=all"]
  /\ (fun b => b.1.2) <$> omap built tr = omap options_reply tr.
Proof.
  split; [reflexivity|].
  apply (list_url_from_addOptions "preview" (scripted (answering JNull))).
  eexists. reflexivity.
Defined.

Lemma Do_outcome_passed_through_witness :
  let cl := scripted {| onOptions := onOptions (answering JNull);
                        onRequest := onRequest (answering JNull);
                        server := fun _ => (Some {| StatusCode := 404 |}, JNull,
                                            Some "404 Not Found") |} in
  let out := result_of cl (perform "preview" {| Cancelled := false |} (OpGet "o" "r" 1)) [] in
  response out = Some {| StatusCode := 404 |} /\ err out = Some "404 Not Found".
Proof.
  apply Do_outcome_passed_through. apply list_elem_of_singleton. reflexivity.
Defined.

Lemma success_returns_decoded_witness :
  let cl := scripted (answering (JObject [("number", JNumber 1)])) in
  let op := OpGet "o" "r" 1 in
  omap decoded (trace_of cl (perform "preview" {| Cancelled := false |} op) [])
  = [existT Issue.t (Issue.with_Number (Some 1) Issue.zero)].
Proof.
  exact (success_returns_decoded "preview"
           (scripted (answering (JObject [("number", JNumber 1)]))) []
           {| Cancelled := false |} (OpGet "o" "r" 1) eq_refl).
Defined.

Lemma one_entity_nil_iff_error_witness :
  let cl := scripted (refusing "no request") in
  let out := result_of cl (perform "preview" {| Cancelled := false |} (OpEdit "o" "r" 1 None)) [] in
  err out = Some "no request" /\ entity_is_nil (entity out) = true.
Proof.
  split; [reflexivity|].
  apply (one_entity_nil_iff_error "preview" (scripted (refusing "no request")) []
           {| Cancelled := false |} (OpEdit "o" "r" 1 None) eq_refl).
  discriminate.
Defined.

Lemma success_means_sent_witness :
  let cl := scripted (answering JNull) in
  exists req,
    omap sent (trace_of cl (perform "preview" {| Cancelled := false |} (OpUnlock "o" "r" 1)) [])
    = [req].
Proof.
  exact (success_means_sent "preview" (scripted (answering JNull)) []
           {| Cancelled := false |} (OpUnlock "o" "r" 1) eq_refl).
Defined.

Lemma issue_number_decides_path_witness :
  let cl := scripted (answering JNull) in
  omap built (trace_of cl (Get "preview" {| Cancelled := false |} "o" "r" 5) [])
  <> omap built (trace_of cl (Get "preview" {| Cancelled := false |} "o" "r" 6) []).
Proof.
  apply (issue_number_decides_path (scripted (answering JNull))). discriminate.
Defined.

Lemma Milestone_round_trip_witness :
  let m := Milestone.with_Description (Some "first release")
             (Milestone.with_State (Some "open")
                (Milestone.with_Title (Some "v1") (Milestone.with_Number (Some 3) Milestone.zero))) in
  MarshalJSON m
  = JObject [("number", JNumber 3); ("state", JString "open"); ("title", JString "v1");
             ("description", JString "first release")]
  /\ UnmarshalJSON (MarshalJSON m) Milestone.zero = (m, None).
Proof.
  split; [reflexivity|].
  apply Milestone_round_trip.
  repeat split; intros d [= <-]; reflexivity.
Defined.

(** [ListByRepo] against the scripted client: one request is sent, with the
    header [Accept] set. *)
Lemma preview_header_operations_witness :
  let cl := scripted (answering JNull) in
  let op := OpListByRepo "o" "r" None in
  omap construction_error (trace_of cl (perform "preview" {| Cancelled := false |} op) []) = []
  /\ omap sent (trace_of cl (perform "preview" {| Cancelled := false |} op) [])
     = [{| Method := "GET"; URL := "repos/o/r/issues";
           Header := {["Accept" := ["preview"]]}; Body := None |}].
Proof.
  split; [reflexivity|].
  destruct (proj2 (proj2 (preview_header_operations "preview" (scripted (answering JNull)) []
                            {| Cancelled := false |} (OpListByRepo "o" "r" None))) eq_refl)
    as (given & Hgiven & Hsent).
  rewrite Hsent.
  assert (Hc : omap returned
                 (trace_of (scripted (answering JNull))
                    (perform "preview" {| Cancelled := false |} (OpListByRepo "o" "r" None)) [])
               = [{| Method := "GET"; URL := "repos/o/r/issues"; Header := ∅; Body := None |}])
    by reflexivity.
  rewrite Hc in Hgiven. injection Hgiven as <-. reflexivity.
Defined.

(** C6 as stated fails: [Lock] with no options does not ask for a request
    without a body; the nil options pointer it passes is sent as [null]. *)
Lemma Lock_without_options_sends_null :
  let tr := trace_of (scripted (answering JNull))
              (Lock {| Cancelled := false |} "o" "r" 1 None) [] in
  omap built tr = [("PUT", "repos/o/r/issues/1/lock", Some JNull)]
  /\ omap built tr <> [("PUT", "repos/o/r/issues/1/lock", None)].
Proof.
  assert (H : omap built (trace_of (scripted (answering JNull))
                            (Lock {| Cancelled := false |} "o" "r" 1 None) [])
              = [("PUT", "repos/o/r/issues/1/lock", Some JNull)]) by reflexivity.
  split; [exact H|]. rewrite H. discriminate.
Qed.
